(** * pdf_processor.py: the PDF rewriting pipeline

    A shallow embedding of [src/pdf_processor.py]: the class
    [PDFIntelligentProcessor] with its constructor and its three methods
    [extract_text_from_pdf], [process_command_with_gpt] and
    [replace_text_in_pdf], and [main].

    The program is orchestration over PyMuPDF ([fitz]), the OpenAI client,
    [os] and [dotenv].  Those libraries are not part of the repository: their
    observable behaviour is a parameter of the development (the record
    [External] below), and the state they touch (environment variables, the
    file system, the console, the requests sent) is the record [World]. *)

From Stdlib Require Import ZArith NArith QArith List String Ascii Lia.
From stdpp Require Import base option list gmap strings.

Local Open Scope Z_scope.
Local Open Scope list_scope.

(** ** Python strings *)

(** A Python [str] is a sequence of Unicode code points. *)
Definition pystr : Type := list N.

(** An ASCII literal of the source as a [pystr]. *)
Definition lit (s : string) : pystr :=
  List.map N_of_ascii (list_ascii_of_string s).

Definition LF : N := 10%N.

(** [str.isspace] on one code point, as CPython's [_PyUnicode_IsWhitespace]:
    the characters [str.strip()] removes. *)
Definition isspace (c : N) : bool :=
  ((9 <=? c) && (c <=? 13) || (28 <=? c) && (c <=? 32)
   || (c =? 133) || (c =? 160) || (c =? 5760)
   || (8192 <=? c) && (c <=? 8202)
   || (c =? 8232) || (c =? 8233) || (c =? 8239) || (c =? 8287)
   || (c =? 12288))%N.

(** [str.lstrip()]: drop the leading whitespace. *)
Fixpoint lstrip (s : pystr) : pystr :=
  match s with
  | c :: s' => if isspace c then lstrip s' else s
  | [] => []
  end.

(** [str.rstrip()]: drop the trailing whitespace. *)
Definition rstrip (s : pystr) : pystr := reverse (lstrip (reverse s)).

(** [str.strip()] with no argument. *)
Definition strip (s : pystr) : pystr := rstrip (lstrip s).

(** [s.startswith(p)] and [s.endswith(p)]. *)
Fixpoint startswith (s p : pystr) : bool :=
  match p, s with
  | [], _ => true
  | _ :: _, [] => false
  | b :: p', a :: s' => (a =? b)%N && startswith s' p'
  end.

Definition endswith (s p : pystr) : bool := startswith (reverse s) (reverse p).

(** ** [os.path.join] (posixpath) *)

Definition sep : pystr := lit "/".

(** One turn of the loop of [posixpath.join]: [b] replaces the path when it
    is absolute, is appended directly when the path is empty or ends with
    the separator, and is appended after a separator otherwise. *)
Definition join_step (path b : pystr) : pystr :=
  if startswith b sep then b
  else if (match path with [] => true | _ => false end) || endswith path sep
       then path ++ b
       else path ++ sep ++ b.

Definition os_path_join (a : pystr) (p : list pystr) : pystr :=
  fold_left join_step p a.

(** ** Exceptions *)

(** An instance of Python's [Exception]: its class name and [str(e)], what
    the f-strings of the handlers print.  Every error the libraries raise is
    such an instance, and [except Exception] catches each of them. *)
Record exn : Type := mkExn { exc_type : string; exc_str : pystr }.

Inductive result (A : Type) : Type :=
| Ok (a : A)
| Raise (e : exn).
Arguments Ok {A} a.
Arguments Raise {A} e.

Definition ValueError (msg : pystr) : exn := mkExn "ValueError" msg.
(** [str(KeyError(k))] is the [repr] of the key. *)
Definition KeyError (k : pystr) : exn :=
  mkExn "KeyError" (lit "'" ++ k ++ lit "'").
Definition IndexError (msg : pystr) : exn := mkExn "IndexError" msg.
Definition AttributeError (msg : pystr) : exn := mkExn "AttributeError" msg.

(** ** The documents PyMuPDF reads *)

Definition bytes : Type := list Byte.byte.

(** [fitz.Rect]: the corners, with [width] and [height] as properties. *)
Record Rect : Type := mkRect { x0 : Q; y0 : Q; x1 : Q; y1 : Q }.

Definition width (r : Rect) : Q := Qminus (x1 r) (x0 r).
Definition height (r : Rect) : Q := Qminus (y1 r) (y0 r).

(** One entry of [page.get_images(full=True)]; the source reads only
    [img[0]], the cross-reference number. *)
Record ImageItem : Type := mkImageItem {
  xref : Z;
  smask : Z;
  img_width : Z;
  img_height : Z;
  img_name : string
}.

(** A page of an opened document: its rectangle, and what [get_text()] and
    [get_images(full=True)] give (or raise). *)
Record Page : Type := mkPage {
  rect : Rect;
  get_text : result pystr;
  get_images : result (list ImageItem)
}.

(** An opened document: the pages it iterates over, and
    [doc.extract_image(xref)], a dictionary of which the source reads the
    key ["image"] ([Ok None]: a dictionary without that key). *)
Record Document : Type := mkDocument {
  pages : list Page;
  extract_image : Z -> result (option bytes)
}.

(** ** The document PyMuPDF builds *)

(** A call [insert_text(point, text, fontsize=...)]; [tr_fontname] is the
    [fontname] argument, [None] when the call leaves the library default. *)
Record TextRun : Type := mkTextRun {
  tr_point : Z * Z;
  tr_text : pystr;
  tr_fontsize : Z;
  tr_fontname : option pystr
}.

(** A call [insert_image(rect, stream=...)]: its two arguments, and the
    rectangle of the page the image is then drawn in.  The call leaves
    [keep_proportion] at its default, so the library fits the image inside
    [ip_rect] and [ip_bbox] need not be [ip_rect]. *)
Record ImagePlacement : Type := mkImagePlacement {
  ip_rect : Rect;
  ip_stream : bytes;
  ip_bbox : Rect
}.

(** A page of the new document: the size it was created with and what was
    inserted into it, in insertion order. *)
Record NewPage : Type := mkNewPage {
  np_width : Q;
  np_height : Q;
  np_texts : list TextRun;
  np_images : list ImagePlacement
}.

(** [new_doc]: its pages in creation order.  A page object is a handle into
    this list (its page number): inserting into the page changes the
    document. *)
Abbreviation NewDocument := (list NewPage).

(** ** The OpenAI chat completion interface *)

Record ChatMessage : Type := mkChatMessage { role : pystr; content : pystr }.

Record Request : Type := mkRequest {
  model : pystr;
  messages : list ChatMessage
}.

(** [response.choices[i].message.content] is a string or [None]. *)
Record Choice : Type := mkChoice { message_content : option pystr }.
Record Response : Type := mkResponse { choices : list Choice }.

(** ** The console *)

(** The lines the program prints, one constructor per [print] of the
    source; [render] gives the text. *)
Inductive Line : Type :=
| ErrorExtracting (e : exn)
| ErrorGpt (e : exn)
| NoTextExtracted
| ProcessedSuccessfully (output_path : pystr)
| ErrorProcessing (e : exn).

Definition cross : N := 10060%N.  (* U+274C *)
Definition check_mark : N := 9989%N.  (* U+2705 *)

Definition render (l : Line) : pystr :=
  match l with
  | ErrorExtracting e => lit "Error extracting text: " ++ exc_str e
  | ErrorGpt e => lit "Error processing with GPT: " ++ exc_str e
  | NoTextExtracted => cross :: lit " No text extracted from the PDF."
  | ProcessedSuccessfully p =>
      check_mark :: lit " PDF processed successfully: " ++ p
  | ErrorProcessing e => cross :: lit " Error processing PDF: " ++ exc_str e
  end.

(** ** The state of the world *)

Record World : Type := mkWorld {
  environ : gmap pystr pystr;   (* os.environ *)
  dotenv : gmap pystr pystr;    (* the assignments of the .env file *)
  fs : gmap pystr bytes;        (* the files, by path *)
  dirs : gset pystr;            (* the directories *)
  stdout : list Line;           (* what was printed, oldest first *)
  requests : list Request       (* the completion requests sent, oldest first *)
}.

Definition set_environ (f : gmap pystr pystr -> gmap pystr pystr) (w : World) : World :=
  mkWorld (f (environ w)) (dotenv w) (fs w) (dirs w) (stdout w) (requests w).
Definition set_fs (f : gmap pystr bytes -> gmap pystr bytes) (w : World) : World :=
  mkWorld (environ w) (dotenv w) (f (fs w)) (dirs w) (stdout w) (requests w).
Definition set_dirs (f : gset pystr -> gset pystr) (w : World) : World :=
  mkWorld (environ w) (dotenv w) (fs w) (f (dirs w)) (stdout w) (requests w).
Definition set_stdout (f : list Line -> list Line) (w : World) : World :=
  mkWorld (environ w) (dotenv w) (fs w) (dirs w) (f (stdout w)) (requests w).
Definition set_requests (f : list Request -> list Request) (w : World) : World :=
  mkWorld (environ w) (dotenv w) (fs w) (dirs w) (stdout w) (f (requests w)).

(** ** What the libraries and the service do *)

(** The behaviour of the code the program calls and does not define. *)
Record External : Type := mkExternal {
  (* os.path.dirname(os.path.abspath(__file__)) *)
  script_dir : pystr;
  (* os.makedirs(path, exist_ok=True): the error it raises, if any *)
  makedirs_error : World -> pystr -> option exn;
  (* fitz.open(path) on a file with these contents *)
  parse_pdf : bytes -> result Document;
  (* fitz.open(path) on a path with no file *)
  no_such_file : pystr -> exn;
  (* client.chat.completions.create, for a client with this key, after the
     requests already sent *)
  completions_create : pystr -> list Request -> Request -> result Response;
  (* new_doc.new_page(width=, height=): the error it raises, if any *)
  new_page_error : NewDocument -> Q -> Q -> option exn;
  (* new_page.insert_text(point, text, fontsize=), for the page of this
     number in the document *)
  insert_text_error : NewDocument -> nat -> Z * Z -> pystr -> Z -> option exn;
  (* new_page.insert_image(rect, stream=) *)
  insert_image_error : NewDocument -> nat -> Rect -> bytes -> option exn;
  (* the bytes new_doc.save writes when it succeeds *)
  pdf_bytes : NewDocument -> bytes;
  (* new_doc.save(path): [None] when it succeeds; otherwise the error and
     what it left at the path, if anything *)
  save_error : World -> pystr -> NewDocument -> option (exn * option bytes);
  (* openai.OpenAI(api_key=key): the error it raises, if any *)
  client_error : pystr -> option exn;
  (* where new_page.insert_image(rect, stream=stream) draws the image: with
     keep_proportion at its default, the image of the stream fitted inside
     rect *)
  image_bbox : Rect -> bytes -> Rect;
  (* the directories left by a new_doc.save(path) that failed *)
  failed_save_dirs : World -> pystr -> NewDocument -> gset pystr
}.

(** ** Computations: state and exceptions *)

(** A statement of the program: it runs in a world and either returns a
    value or raises, in a new world. *)
Definition M (A : Type) : Type := World -> result A * World.

Definition ret {A} (a : A) : M A := fun w => (Ok a, w).
Definition raise {A} (e : exn) : M A := fun w => (Raise e, w).
Definition bind {A B} (m : M A) (k : A -> M B) : M B :=
  fun w => match m w with
           | (Ok a, w') => k a w'
           | (Raise e, w') => (Raise e, w')
           end.

(** [try: m except Exception as e: h e]. *)
Definition try_except {A} (m : M A) (h : exn -> M A) : M A :=
  fun w => match m w with
           | (Ok a, w') => (Ok a, w')
           | (Raise e, w') => h e w'
           end.

(** A library call that touches no state. *)
Definition call {A} (r : result A) : M A := fun w => (r, w).

Definition print (l : Line) : M unit :=
  fun w => (Ok tt, set_stdout (fun out => out ++ [l]) w).

Declare Scope py_scope.
Delimit Scope py_scope with py.
Notation "x <- c1 ;; c2" := (bind c1 (fun x => c2))
  (at level 100, c1 at next level, right associativity) : py_scope.
Notation "c1 ;;; c2" := (bind c1 (fun _ => c2))
  (at level 100, right associativity) : py_scope.
Local Open Scope py_scope.

(** [for x in xs: body x acc], with the loop's variables as [acc]. *)
Fixpoint for_each {A S} (xs : list A) (body : A -> S -> M S) (acc : S) : M S :=
  match xs with
  | [] => ret acc
  | x :: xs' => acc' <- body x acc ;; for_each xs' body acc'
  end.

(** ** The library calls, as statements *)

Section Processor.

Context (X : External).

(** [load_dotenv()]: every assignment of the .env file whose name is not
    yet in [os.environ] is added to it. *)
Definition load_dotenv : M unit :=
  fun w => (Ok tt, set_environ (fun env => env ∪ dotenv w) w).

Definition os_getenv (name : pystr) : M (option pystr) :=
  fun w => (Ok (environ w !! name), w).

Definition os_makedirs (path : pystr) : M unit :=
  fun w => match makedirs_error X w path with
           | Some e => (Raise e, w)
           | None => (Ok tt, set_dirs (fun d => d ∪ {[path]}) w)
           end.

(** [fitz.open(path)]. *)
Definition fitz_open (path : pystr) : M Document :=
  fun w => match fs w !! path with
           | Some b => (parse_pdf X b, w)
           | None => (Raise (no_such_file X path), w)
           end.

(** [doc.close()]: handles hold no state in this model. *)
Definition close : M unit := ret tt.

(** [new_doc.new_page(width=w, height=h)]: the page is appended to the
    document; the result is the document and the new page's number. *)
Definition new_page (new_doc : NewDocument) (w h : Q) : M (NewDocument * nat) :=
  match new_page_error X new_doc w h with
  | Some e => raise e
  | None => ret (new_doc ++ [mkNewPage w h [] []], length new_doc)
  end.

Definition add_text (t : TextRun) (p : NewPage) : NewPage :=
  mkNewPage (np_width p) (np_height p) (np_texts p ++ [t]) (np_images p).

Definition add_image (i : ImagePlacement) (p : NewPage) : NewPage :=
  mkNewPage (np_width p) (np_height p) (np_texts p) (np_images p ++ [i]).

(** [new_page.insert_text(point, text, fontsize=fontsize)], on the page
    numbered [pno] of [new_doc]. *)
Definition insert_text (new_doc : NewDocument) (pno : nat)
    (point : Z * Z) (text : pystr) (fontsize : Z) : M NewDocument :=
  match insert_text_error X new_doc pno point text fontsize with
  | Some e => raise e
  | None => ret (alter (add_text (mkTextRun point text fontsize None)) pno new_doc)
  end.

(** [new_page.insert_image(rect, stream=stream)]. *)
Definition insert_image (new_doc : NewDocument) (pno : nat)
    (r : Rect) (stream : bytes) : M NewDocument :=
  match insert_image_error X new_doc pno r stream with
  | Some e => raise e
  | None =>
      ret (alter (add_image (mkImagePlacement r stream (image_bbox X r stream)))
             pno new_doc)
  end.

(** The world a [new_doc.save(path)] that failed leaves: the partial file
    it wrote, if any, and the directories that remain. *)
Definition failed_save (new_doc : NewDocument) (path : pystr)
    (left_behind : option bytes) (w : World) : World :=
  set_dirs (fun _ => failed_save_dirs X w path new_doc)
    match left_behind with
    | Some partial => set_fs (fun f => <[path := partial]> f) w
    | None => w
    end.

(** [new_doc.save(path)]. *)
Definition save (new_doc : NewDocument) (path : pystr) : M unit :=
  fun w => match save_error X w path new_doc with
           | None => (Ok tt, set_fs (fun f => <[path := pdf_bytes X new_doc]> f) w)
           | Some (e, left_behind) => (Raise e, failed_save new_doc path left_behind w)
           end.

(** ** [PDFIntelligentProcessor] *)

Record Client : Type := mkClient { client_api_key : pystr }.

Record Processor : Type := mkProcessor {
  api_key : pystr;
  client : Client;
  self_script_dir : pystr;
  input_dir : pystr;
  output_dir : pystr
}.

(** [openai.OpenAI(api_key=api_key)]. *)
Definition openai_OpenAI (api_key : pystr) : M Client :=
  match client_error X api_key with
  | Some e => raise e
  | None => ret (mkClient api_key)
  end.

(** [self.client.chat.completions.create(model=..., messages=...)]. *)
Definition chat_completions_create (c : Client) (req : Request) : M Response :=
  fun w => (completions_create X (client_api_key c) (requests w) req,
            set_requests (fun rs => rs ++ [req]) w).

Definition OPENAI_API_KEY : pystr := lit "OPENAI_API_KEY".

Definition key_not_found : exn :=
  ValueError (lit "OpenAI API Key not found. Please set it in .env file.").

(** [__init__]. *)
Definition init : M Processor :=
  load_dotenv ;;;
  key <- os_getenv OPENAI_API_KEY ;;
  match key with
  | Some (c :: k) =>
      let api_key := c :: k in
      client <- openai_OpenAI api_key ;;
      let script_dir := script_dir X in
      let input_dir := os_path_join script_dir [lit ".."; lit "input"] in
      let output_dir := os_path_join script_dir [lit ".."; lit "output"] in
      os_makedirs output_dir ;;;
      ret (mkProcessor api_key client script_dir input_dir output_dir)
  | _ => raise key_not_found   (* [not self.api_key]: [None] or [''] *)
  end.

(** The body of the loop [for page in doc]. *)
Definition read_page (page : Page) (page_texts : list pystr) : M (list pystr) :=
  page_text <- call (get_text page) ;;
  ret (page_texts ++ [page_text]).

(** [extract_text_from_pdf]. *)
Definition extract_text_from_pdf (self : Processor) (pdf_path : pystr) : M (list pystr) :=
  try_except
    (doc <- fitz_open pdf_path ;;
     page_texts <- for_each (pages doc) read_page [] ;;
     close ;;;
     ret page_texts)
    (fun e => print (ErrorExtracting e) ;;; ret []).

Definition gpt_model : pystr := lit "gpt-4-turbo-preview".

Definition system_message : ChatMessage :=
  mkChatMessage (lit "system")
    (lit "You are an AI assistant that edits text precisely.").

Definition user_message (text command : pystr) : ChatMessage :=
  mkChatMessage (lit "user")
    (lit "Command: " ++ command ++ [LF; LF] ++ lit "Original Text:" ++ [LF] ++ text).

Definition gpt_request (text command : pystr) : Request :=
  mkRequest gpt_model [system_message; user_message text command].

(** [response.choices[0].message.content.strip()]. *)
Definition first_choice_stripped (response : Response) : M pystr :=
  match choices response with
  | [] => raise (IndexError (lit "list index out of range"))
  | c :: _ =>
      match message_content c with
      | Some s => ret (strip s)
      | None => raise (AttributeError (lit "'NoneType' object has no attribute 'strip'"))
      end
  end.

(** [process_command_with_gpt]. *)
Definition process_command_with_gpt (self : Processor) (text command : pystr) : M pystr :=
  try_except
    (response <- chat_completions_create (client self) (gpt_request text command) ;;
     first_choice_stripped response)
    (fun e => print (ErrorGpt e) ;;; ret text).

(** [base_image["image"]]. *)
Definition getitem_image (base_image : option bytes) : M bytes :=
  match base_image with
  | Some b => ret b
  | None => raise (KeyError (lit "image"))
  end.

(** The body of the loop [for img in page.get_images(full=True)]. *)
Definition copy_image (doc : Document) (page : Page) (new_page : nat)
    (img : ImageItem) (new_doc : NewDocument) : M NewDocument :=
  let xref := xref img in
  base_image <- call (extract_image doc xref) ;;
  image_bytes <- getitem_image base_image ;;
  insert_image new_doc new_page (rect page) image_bytes.

(** The body of the loop over [zip(doc, modified_page_texts)]. *)
Definition rebuild_page (doc : Document) (pair : Page * pystr)
    (new_doc : NewDocument) : M NewDocument :=
  let '(page, modified_text) := pair in
  created <- new_page new_doc (width (rect page)) (height (rect page)) ;;
  let '(new_doc, new_page) := created in
  new_doc <- insert_text new_doc new_page (50, 50) modified_text 11 ;;
  imgs <- call (get_images page) ;;
  for_each imgs (copy_image doc page new_page) new_doc.

(** The [try] block of [replace_text_in_pdf]. *)
Definition rebuild (input_path output_path : pystr)
    (modified_page_texts : list pystr) : M unit :=
  doc <- fitz_open input_path ;;
  new_doc <- for_each (zip (pages doc) modified_page_texts) (rebuild_page doc) [] ;;
  save new_doc output_path ;;;
  close ;;;
  close ;;;
  print (ProcessedSuccessfully output_path).

(** The body of the loop [for text in page_texts]. *)
Definition rewrite_page (self : Processor) (command text : pystr)
    (modified_page_texts : list pystr) : M (list pystr) :=
  modified_text <- process_command_with_gpt self text command ;;
  ret (modified_page_texts ++ [modified_text]).

(** [os.path.join(self.input_dir, input_filename)] and
    [os.path.join(self.output_dir, output_filename)]. *)
Definition input_path_of (self : Processor) (input_filename : pystr) : pystr :=
  os_path_join (input_dir self) [input_filename].
Definition output_path_of (self : Processor) (output_filename : pystr) : pystr :=
  os_path_join (output_dir self) [output_filename].

(** [replace_text_in_pdf]. *)
Definition replace_text_in_pdf (self : Processor)
    (input_filename output_filename command : pystr) : M unit :=
  let input_path := input_path_of self input_filename in
  let output_path := output_path_of self output_filename in
  page_texts <- extract_text_from_pdf self input_path ;;
  match page_texts with
  | [] => print NoTextExtracted   (* [not page_texts] *)
  | _ :: _ =>
      modified_page_texts <- for_each page_texts (rewrite_page self command) [] ;;
      try_except
        (rebuild input_path output_path modified_page_texts)
        (fun e => print (ErrorProcessing e))
  end.

Definition modification_command : pystr :=
  lit "Replace all mentions of 'Startup' with 'Enterprise'. Maintain the original context and tone.".

(** [main]. *)
Definition main : M unit :=
  processor <- init ;;
  replace_text_in_pdf processor (lit "sample.pdf") (lit "modified_sample.pdf")
    modification_command.

End Processor.

(** ** Predicates the statements use *)

Definition all_space (s : pystr) : Prop := Forall (fun c => isspace c = true) s.

(** Neither the first nor the last character of [s] is whitespace. *)
Definition no_outer_space (s : pystr) : Prop :=
  (forall c, head s = Some c -> isspace c = false) /\
  (forall c, last s = Some c -> isspace c = false).

(** [r] is [s] with its leading and trailing whitespace removed. *)
Definition stripped_of (s r : pystr) : Prop :=
  exists pre suf,
    s = pre ++ r ++ suf /\ all_space pre /\ all_space suf /\ no_outer_space r.

(** Appending one line to the console. *)
Definition logged (l : Line) (w : World) : World :=
  set_stdout (fun out => out ++ [l]) w.

(** The value [os.getenv("OPENAI_API_KEY")] has after [load_dotenv()]: the
    environment variable, or else the assignment of the .env file. *)
Definition configured_key (w : World) : option pystr :=
  (environ w ∪ dotenv w) !! OPENAI_API_KEY.

(** Recording one completion request as sent. *)
Definition sent (r : Request) (w : World) : World :=
  set_requests (fun rs => rs ++ [r]) w.

(** The handler of the [try] block of [replace_text_in_pdf]. *)
Definition log_processing_error (e : exn) : M unit := print (ErrorProcessing e).

(** Opening the document at [path] and reading the text of its pages fails
    with [e]: there is no file, or the file does not parse, or some page's
    text cannot be read (the first such page raising [e]). *)
Inductive extraction_fails (X : External) (w : World) (path : pystr) (e : exn) : Prop :=
| fails_missing :
    fs w !! path = None -> e = no_such_file X path ->
    extraction_fails X w path e
| fails_open (b : bytes) :
    fs w !! path = Some b -> parse_pdf X b = Raise e ->
    extraction_fails X w path e
| fails_read (b : bytes) (d : Document) (before after : list Page) (p : Page) :
    fs w !! path = Some b -> parse_pdf X b = Ok d ->
    pages d = before ++ p :: after ->
    Forall (fun q => exists t, get_text q = Ok t) before ->
    get_text p = Raise e ->
    extraction_fails X w path e.

(** The text run the reconstruction draws for a page. *)
Definition text_run (modified_text : pystr) : TextRun :=
  mkTextRun (50, 50) modified_text 11 None.

(** [pl] places image [img] of [page]: the bytes [doc.extract_image] gives
    for it, inserted with the rectangle of the page as target and drawn
    where the library fits them. *)
Definition places (X : External) (doc : Document) (page : Page) (img : ImageItem)
    (pl : ImagePlacement) : Prop :=
  ip_rect pl = rect page /\
  extract_image doc (xref img) = Ok (Some (ip_stream pl)) /\
  ip_bbox pl = image_bbox X (rect page) (ip_stream pl).

(** [np] is the page the reconstruction builds from [page] and its
    rewritten text. *)
Definition rebuilt_from (X : External) (doc : Document) (pair : Page * pystr)
    (np : NewPage) : Prop :=
  np_width np = width (rect pair.1) /\
  np_height np = height (rect pair.1) /\
  np_texts np = [text_run pair.2] /\
  exists imgs, get_images pair.1 = Ok imgs /\
               Forall2 (places X doc pair.1) imgs (np_images np).

(** ** A sample installation

    The two-page document of the end-to-end scenario, a document without
    pages, a file that does not parse, and a service that answers the first
    two requests and then refuses. *)

Definition letter : Rect := mkRect (0 # 1) (0 # 1) (612 # 1) (792 # 1).

Definition logo_bytes : bytes := [Byte.x89; Byte.x50; Byte.x4e; Byte.x47].

Definition sample_doc : Document :=
  mkDocument
    [ mkPage letter (Ok (lit "Hello Startup")) (Ok [mkImageItem 7 0 120 40 "Im0"]);
      mkPage letter (Ok (lit "Startup rocks")) (Ok []) ]
    (fun x => if (x =? 7)%Z then Ok (Some logo_bytes) else Ok None).

Definition empty_doc : Document := mkDocument [] (fun _ => Ok None).

(** A one-page document whose image entry refers to an object that is not
    an image. *)
Definition dangling_doc : Document :=
  mkDocument
    [ mkPage letter (Ok (lit "Figure 1")) (Ok [mkImageItem 9 0 10 10 "Im9"]) ]
    (fun _ => Ok None).

Definition answer (s : pystr) : Response := mkResponse [mkChoice (Some s)].

(** The largest rectangle with sides in the proportion [iw] to [ih] that
    fits inside [r], centred in [r]: where an image of [iw] by [ih] pixels
    is drawn when its proportion is kept. *)
Definition fit_inside (iw ih : Q) (r : Rect) : Rect :=
  let w := if Qle_bool (iw * height r) (ih * width r)
           then (height r * iw / ih)%Q else width r in
  let h := if Qle_bool (iw * height r) (ih * width r)
           then height r else (width r * ih / iw)%Q in
  let cx := ((x0 r + x1 r) / (2 # 1))%Q in
  let cy := ((y0 r + y1 r) / (2 # 1))%Q in
  mkRect (Qred (cx - w / (2 # 1))) (Qred (cy - h / (2 # 1)))
         (Qred (cx + w / (2 # 1))) (Qred (cy + h / (2 # 1))).

Definition sample_external : External :=
  mkExternal
    (lit "/app/src")
    (fun _ _ => None)
    (fun b =>
       match b with
       | [Byte.x01] => Ok sample_doc
       | [Byte.x00] => Ok empty_doc
       | [Byte.x03] => Ok dangling_doc
       | _ => Raise (mkExn "FileDataError" (lit "Failed to open file"))
       end)
    (fun path => mkExn "FileNotFoundError" (lit "no such file: " ++ path))
    (fun _ sent_before _ =>
       match sent_before with
       | [] => Ok (answer (lit "  Hello Enterprise "))
       | [_] => Ok (answer (lit "Enterprise rocks" ++ [LF]))
       | _ => Raise (mkExn "RateLimitError" (lit "quota exceeded"))
       end)
    (fun _ _ _ => None)
    (fun _ _ _ _ _ => None)
    (fun _ _ _ _ => None)
    (fun nd => List.map (fun _ => Byte.x25) nd)
    (fun _ _ _ => None)
    (fun _ => None)
    (fun r _ => fit_inside (120 # 1) (40 # 1) r)   (* the logo is 120 by 40 *)
    (fun w _ _ => dirs w).

Definition sample_key : pystr := lit "sk-test".

Definition sample_self : Processor :=
  mkProcessor sample_key (mkClient sample_key) (lit "/app/src")
    (lit "/app/src/../input") (lit "/app/src/../output").

Definition sample_files : gmap pystr bytes :=
  {[ lit "/app/src/../input/sample.pdf" := [Byte.x01];
     lit "/app/src/../input/empty.pdf" := [Byte.x00];
     lit "/app/src/../input/broken.pdf" := [Byte.x02];
     lit "/app/src/../input/dangling.pdf" := [Byte.x03] ]}.

Definition sample_world : World :=
  mkWorld {[ OPENAI_API_KEY := sample_key ]} ∅ sample_files ∅ [] [].

(** The same installation once the service has stopped answering. *)
Definition exhausted_world : World :=
  sent (gpt_request [] []) (sent (gpt_request [] []) sample_world).

(** An installation whose key is set to the empty string. *)
Definition empty_key_world : World :=
  mkWorld {[ OPENAI_API_KEY := [] ]} ∅ sample_files ∅ [] [].

(** An installation whose key comes from the .env file only. *)
Definition dotenv_world : World :=
  mkWorld ∅ {[ OPENAI_API_KEY := sample_key ]} sample_files ∅ [] [].

(** An installation without a key. *)
Definition keyless_world : World :=
  mkWorld ∅ ∅ sample_files ∅ [] [].

Definition sample_pdf : pystr := lit "/app/src/../input/sample.pdf".
Definition broken_pdf : pystr := lit "/app/src/../input/broken.pdf".

Definition file_data_error : exn :=
  mkExn "FileDataError" (lit "Failed to open file").

(** The run of [main]'s call on the sample installation. *)
Definition sample_run : result unit * World :=
  replace_text_in_pdf sample_external sample_self
    (lit "sample.pdf") (lit "modified_sample.pdf") modification_command sample_world.

(** ** Python strings: [strip] *)

Lemma lstrip_spec (s : pystr) :
  exists pre, s = pre ++ lstrip s /\ all_space pre /\
              forall c, head (lstrip s) = Some c -> isspace c = false.
Proof.
  induction s as [|c s IH]; simpl.
  - exists []. repeat split; [constructor | discriminate].
  - destruct (isspace c) eqn:Hc.
    + destruct IH as (pre & Hs & Hpre & Hhd).
      exists (c :: pre). split; [simpl; congruence|].
      split; [constructor; assumption | assumption].
    + exists []. repeat split; [constructor|].
      simpl. intros c' [= <-]. assumption.
Qed.

Lemma rstrip_spec (s : pystr) :
  exists suf, s = rstrip s ++ suf /\ all_space suf /\
              forall c, last (rstrip s) = Some c -> isspace c = false.
Proof.
  unfold rstrip. destruct (lstrip_spec (reverse s)) as (pre & Hs & Hpre & Hhd).
  exists (reverse pre). split; [|split].
  - rewrite <- reverse_app, <- Hs. symmetry. apply reverse_involutive.
  - unfold all_space in *. apply Forall_reverse. assumption.
  - intros c Hc. apply Hhd. rewrite last_reverse in Hc. assumption.
Qed.

Lemma strip_spec (s : pystr) : stripped_of s (strip s).
Proof.
  unfold strip.
  destruct (lstrip_spec s) as (pre & Hs & Hpre & Hhd).
  destruct (rstrip_spec (lstrip s)) as (suf & Ht & Hsuf & Hlast).
  exists pre, suf. repeat split; try assumption.
  - rewrite <- Ht. assumption.
  - intros c Hc. apply Hhd. rewrite Ht.
    destruct (rstrip (lstrip s)); [discriminate | assumption].
Qed.

(** ** Stepping through statements *)

Lemma bind_inv_Ok {A B} (m : M A) (k : A -> M B) w b w2 :
  bind m k w = (Ok b, w2) ->
  exists a w1, m w = (Ok a, w1) /\ k a w1 = (Ok b, w2).
Proof.
  unfold bind. destruct (m w) as [[a|e] w1]; [eauto | discriminate].
Qed.

Lemma bind_Ok {A B} (m : M A) (k : A -> M B) w a w1 :
  m w = (Ok a, w1) -> bind m k w = k a w1.
Proof. unfold bind. intros ->. reflexivity. Qed.

(** ** Extraction *)

Section Extraction.

Context (X : External).

Lemma read_pages_ok (ps : list Page) (ts acc : list pystr) (w : World) :
  Forall2 (fun p t => get_text p = Ok t) ps ts ->
  for_each ps read_page acc w = (Ok (acc ++ ts), w).
Proof.
  intros H. revert acc. induction H as [|p t ps ts Hp _ IH]; intros acc; simpl.
  - unfold ret. rewrite app_nil_r. reflexivity.
  - unfold bind at 1, read_page at 1, bind, call, ret. rewrite Hp.
    rewrite IH, <- app_assoc. reflexivity.
Qed.

Lemma read_pages_fail (before after : list Page) (p : Page) (e : exn)
    (acc : list pystr) (w : World) :
  Forall (fun q => exists t, get_text q = Ok t) before ->
  get_text p = Raise e ->
  for_each (before ++ p :: after) read_page acc w = (Raise e, w).
Proof.
  intros H Hp. revert acc. induction H as [|q qs [t Hq] _ IH]; intros acc; simpl.
  - unfold bind at 1, read_page at 1, bind, call. rewrite Hp. reflexivity.
  - unfold bind at 1, read_page at 1, bind, call, ret. rewrite Hq. apply IH.
Qed.

(** Every page's text can be read, or there is a first page that fails. *)
Lemma read_pages_cases (ps : list Page) :
  (exists ts, Forall2 (fun p t => get_text p = Ok t) ps ts) \/
  (exists before p after e,
     ps = before ++ p :: after /\
     Forall (fun q => exists t, get_text q = Ok t) before /\
     get_text p = Raise e).
Proof.
  induction ps as [|p ps IH].
  - left. exists []. constructor.
  - destruct (get_text p) as [t|e] eqn:Hp.
    + destruct IH as [[ts Hts] | (before & q & after & e & -> & Hb & Hq)].
      * left. exists (t :: ts). constructor; assumption.
      * right. exists (p :: before), q, after, e.
        split; [reflexivity|]. split; [|assumption].
        constructor; [eauto | assumption].
    + right. exists [], p, ps, e. split; [reflexivity|]. split; [constructor | assumption].
Qed.

Lemma extract_ok (self : Processor) (path : pystr) (w : World)
    (b : bytes) (d : Document) (ts : list pystr) :
  fs w !! path = Some b -> parse_pdf X b = Ok d ->
  Forall2 (fun p t => get_text p = Ok t) (pages d) ts ->
  extract_text_from_pdf X self path w = (Ok ts, w).
Proof.
  intros Hf Hd Hts.
  unfold extract_text_from_pdf, try_except, bind at 1, fitz_open.
  rewrite Hf, Hd. unfold bind at 1.
  rewrite (read_pages_ok _ _ _ _ Hts). reflexivity.
Qed.

Lemma extract_fails (self : Processor) (path : pystr) (w : World) (e : exn) :
  extraction_fails X w path e ->
  extract_text_from_pdf X self path w = (Ok [], logged (ErrorExtracting e) w).
Proof.
  intros [Hf -> | b Hf Hd | b d before after p Hf Hd Hps Hb Hp];
    unfold extract_text_from_pdf, try_except, bind at 1, fitz_open; rewrite Hf.
  - reflexivity.
  - rewrite Hd. reflexivity.
  - rewrite Hd. unfold bind at 1. rewrite Hps.
    rewrite (read_pages_fail _ _ _ _ _ _ Hb Hp). reflexivity.
Qed.

(** Extraction either reads every page or fails and logs. *)
Lemma extract_cases (self : Processor) (path : pystr) (w : World) :
  (exists b d ts, fs w !! path = Some b /\ parse_pdf X b = Ok d /\
                  Forall2 (fun p t => get_text p = Ok t) (pages d) ts /\
                  extract_text_from_pdf X self path w = (Ok ts, w)) \/
  (exists e, extraction_fails X w path e /\
             extract_text_from_pdf X self path w = (Ok [], logged (ErrorExtracting e) w)).
Proof.
  destruct (fs w !! path) as [b|] eqn:Hf.
  - destruct (parse_pdf X b) as [d|e] eqn:Hd.
    + destruct (read_pages_cases (pages d))
        as [[ts Hts] | (before & p & after & e & Hps & Hb & Hp)].
      * left. exists b, d, ts. eauto using extract_ok.
      * right. exists e.
        assert (extraction_fails X w path e) by (eapply fails_read; eauto).
        eauto using extract_fails.
    + right. exists e.
      assert (extraction_fails X w path e) by (eapply fails_open; eauto).
      eauto using extract_fails.
  - right. exists (no_such_file X path).
    assert (extraction_fails X w path (no_such_file X path))
      by (apply fails_missing; auto).
    eauto using extract_fails.
Qed.

End Extraction.

(** ** Rewriting *)

Section Rewriting.

Context (X : External).

Lemma gpt_returns_stripped (self : Processor) (text command : pystr) (w : World)
    (response : Response) (c : Choice) (cs : list Choice) (s : pystr) :
  completions_create X (client_api_key (client self)) (requests w)
    (gpt_request text command) = Ok response ->
  choices response = c :: cs ->
  message_content c = Some s ->
  process_command_with_gpt X self text command w
  = (Ok (strip s), sent (gpt_request text command) w).
Proof.
  intros Hcall Hcs Hc.
  unfold process_command_with_gpt, try_except, bind, chat_completions_create.
  rewrite Hcall. unfold first_choice_stripped. rewrite Hcs, Hc. reflexivity.
Qed.

Lemma gpt_falls_back (self : Processor) (text command : pystr) (w : World) (e : exn) :
  completions_create X (client_api_key (client self)) (requests w)
    (gpt_request text command) = Raise e ->
  process_command_with_gpt X self text command w
  = (Ok text, logged (ErrorGpt e) (sent (gpt_request text command) w)).
Proof.
  intros Hcall.
  unfold process_command_with_gpt, try_except, bind, chat_completions_create.
  rewrite Hcall. reflexivity.
Qed.

(** A rewrite call returns some string, sends one request and leaves the
    files alone. *)
Lemma gpt_total (self : Processor) (text command : pystr) (w : World) :
  exists m w',
    process_command_with_gpt X self text command w = (Ok m, w') /\
    fs w' = fs w /\
    requests w' = requests w ++ [gpt_request text command].
Proof.
  unfold process_command_with_gpt, try_except, bind, chat_completions_create.
  destruct (completions_create _ _ _ _) as [response|e].
  - unfold first_choice_stripped.
    destruct (choices response) as [|c cs]; [eexists _, _; simpl; eauto|].
    destruct (message_content c); eexists _, _; simpl; eauto.
  - eexists _, _; simpl; eauto.
Qed.

(** The rewrite loop returns one string per page text. *)
Lemma rewrite_pages_total (self : Processor) (command : pystr)
    (ts acc : list pystr) (w : World) :
  exists ms w',
    for_each ts (rewrite_page X self command) acc w = (Ok (acc ++ ms), w') /\
    length ms = length ts /\
    fs w' = fs w /\
    requests w' = requests w ++ List.map (fun t => gpt_request t command) ts.
Proof.
  revert acc w. induction ts as [|t ts IH]; intros acc w; simpl.
  - exists [], w. unfold ret. rewrite !app_nil_r. auto.
  - destruct (gpt_total self t command w) as (m & w1 & Hm & Hfs & Hrq).
    unfold bind at 1, rewrite_page at 1, bind. rewrite Hm. unfold ret.
    destruct (IH (acc ++ [m]) w1) as (ms & w2 & Hloop & Hlen & Hfs2 & Hrq2).
    exists (m :: ms), w2. rewrite Hloop, <- app_assoc. simpl.
    repeat split; [congruence | congruence |].
    rewrite Hrq2, Hrq, <- app_assoc. reflexivity.
Qed.

End Rewriting.

(** ** Reconstruction *)

Section Reconstruction.

Context (X : External).

Lemma alter_last {A} (f : A -> A) (l : list A) (x : A) :
  alter f (length l) (l ++ [x]) = l ++ [f x].
Proof.
  replace (length l) with (length l + 0)%nat by lia.
  rewrite alter_app_r. reflexivity.
Qed.

(** The image loop appends placements to the page under construction, the
    last of the document, and touches nothing else. *)
Lemma copy_images_inv (doc : Document) (page : Page) (imgs : list ImageItem)
    (nd : NewDocument) (pg : NewPage) (w : World) (nd' : NewDocument) (w' : World) :
  for_each imgs (copy_image X doc page (length nd)) (nd ++ [pg]) w = (Ok nd', w') ->
  w' = w /\
  exists pls,
    nd' = nd ++ [mkNewPage (np_width pg) (np_height pg) (np_texts pg)
                   (np_images pg ++ pls)] /\
    Forall2 (places X doc page) imgs pls.
Proof.
  revert pg. induction imgs as [|img imgs IH]; intros pg; simpl.
  - unfold ret. intros [= <- <-]. split; [reflexivity|].
    exists []. rewrite app_nil_r. destruct pg. split; [reflexivity | constructor].
  - intros H. apply bind_inv_Ok in H as (nd1 & w1 & Hstep & Hrest).
    unfold copy_image, bind, call in Hstep.
    destruct (extract_image doc (xref img)) as [[b|]|e] eqn:Hex;
      simpl in Hstep; try discriminate.
    unfold insert_image in Hstep.
    destruct (insert_image_error X _ _ _ _); [discriminate|].
    unfold ret in Hstep. injection Hstep as <- <-.
    rewrite alter_last in Hrest.
    apply IH in Hrest as (-> & pls & -> & Hpls). split; [reflexivity|].
    exists (mkImagePlacement (rect page) b (image_bbox X (rect page) b) :: pls).
    simpl. split.
    + rewrite <- app_assoc. reflexivity.
    + constructor; [|assumption]. repeat split; simpl; assumption || reflexivity.
Qed.

(** One turn of the page loop appends exactly one page, built from the
    original page and its rewritten text. *)
Lemma rebuild_page_inv (doc : Document) (pair : Page * pystr)
    (nd : NewDocument) (w : World) (nd' : NewDocument) (w' : World) :
  rebuild_page X doc pair nd w = (Ok nd', w') ->
  w' = w /\ exists np, nd' = nd ++ [np] /\ rebuilt_from X doc pair np.
Proof.
  destruct pair as [page text]. unfold rebuild_page. intros H.
  apply bind_inv_Ok in H as ([nd1 pno] & w1 & Hnew & H).
  unfold new_page in Hnew.
  destruct (new_page_error X _ _ _); [discriminate|].
  unfold ret in Hnew. injection Hnew as <- <- <-.
  apply bind_inv_Ok in H as (nd2 & w2 & Htext & H).
  unfold insert_text in Htext.
  destruct (insert_text_error X _ _ _ _ _); [discriminate|].
  unfold ret in Htext. injection Htext as <- <-.
  rewrite alter_last in H.
  apply bind_inv_Ok in H as (imgs & w3 & Himgs & H).
  unfold call in Himgs. injection Himgs as Himgs <-.
  apply copy_images_inv in H as (-> & pls & -> & Hpls).
  split; [reflexivity|]. eexists. split; [reflexivity|].
  unfold rebuilt_from. simpl. repeat split. eauto.
Qed.

Lemma rebuild_pages_inv (doc : Document) (pairs : list (Page * pystr))
    (nd : NewDocument) (w : World) (nd' : NewDocument) (w' : World) :
  for_each pairs (rebuild_page X doc) nd w = (Ok nd', w') ->
  w' = w /\ exists nps, nd' = nd ++ nps /\ Forall2 (rebuilt_from X doc) pairs nps.
Proof.
  revert nd. induction pairs as [|pair pairs IH]; intros nd; simpl.
  - unfold ret. intros [= <- <-]. split; [reflexivity|].
    exists []. rewrite app_nil_r. split; [reflexivity | constructor].
  - intros H. apply bind_inv_Ok in H as (nd1 & w1 & Hstep & Hrest).
    apply rebuild_page_inv in Hstep as (-> & np & -> & Hnp).
    apply IH in Hrest as (-> & nps & -> & Hnps).
    split; [reflexivity|]. exists (np :: nps).
    rewrite <- app_assoc. split; [reflexivity | constructor; assumption].
Qed.

(** The page loop never changes the world, whether it completes or not. *)
Lemma rebuild_pages_world (doc : Document) (pairs : list (Page * pystr))
    (nd : NewDocument) (w : World) :
  snd (for_each pairs (rebuild_page X doc) nd w) = w.
Proof.
  assert (Himgs : forall page pno imgs nd0,
             snd (for_each imgs (copy_image X doc page pno) nd0 w) = w).
  { intros page pno imgs. induction imgs as [|img imgs IH]; intros nd0; simpl.
    - reflexivity.
    - unfold bind at 1, copy_image at 1, bind, call, getitem_image, insert_image.
      destruct (extract_image doc (xref img)) as [[b|]|e]; simpl; try reflexivity.
      destruct (insert_image_error X _ _ _ _); simpl; [reflexivity | apply IH]. }
  revert nd. induction pairs as [|[page text] pairs IH]; intros nd; cbn [for_each].
  - reflexivity.
  - unfold bind at 1.
    destruct (rebuild_page X doc (page, text) nd w) as [[nd1|e] w1] eqn:Hstep.
    + apply rebuild_page_inv in Hstep as (-> & _). apply IH.
    + simpl. unfold rebuild_page, bind, new_page, insert_text, call, raise, ret in Hstep.
      destruct (new_page_error X _ _ _); simpl in Hstep; [congruence|].
      destruct (insert_text_error X _ _ _ _ _); simpl in Hstep; [congruence|].
      destruct (get_images page) as [imgs|e']; simpl in Hstep; [|congruence].
      match type of Hstep with ?t = _ => assert (Hw : snd t = w1) by (rewrite Hstep; reflexivity) end.
      rewrite Himgs in Hw. congruence.
Qed.

(** When the [try] block completes, the document it saved has one page for
    each pair of an original page and a rewritten text. *)
Lemma rebuild_inv (input_path output_path : pystr) (ms : list pystr) (w w' : World) :
  rebuild X input_path output_path ms w = (Ok tt, w') ->
  exists b d nd,
    fs w !! input_path = Some b /\ parse_pdf X b = Ok d /\
    Forall2 (rebuilt_from X d) (zip (pages d) ms) nd /\
    w' = logged (ProcessedSuccessfully output_path)
           (set_fs (fun f => <[output_path := pdf_bytes X nd]> f) w).
Proof.
  unfold rebuild. intros H.
  apply bind_inv_Ok in H as (d & w1 & Hopen & H).
  unfold fitz_open in Hopen.
  destruct (fs w !! input_path) as [b|] eqn:Hf; [|discriminate].
  injection Hopen as Hd <-.
  apply bind_inv_Ok in H as (nd & w2 & Hloop & H).
  apply rebuild_pages_inv in Hloop as (-> & nps & -> & Hnps). simpl in *.
  apply bind_inv_Ok in H as ([] & w3 & Hsave & H).
  unfold save in Hsave.
  destruct (save_error X w output_path nps) as [[e [partial|]]|]; try discriminate.
  injection Hsave as <-.
  unfold bind, close, ret, print in H. injection H as <-.
  exists b, d, nps. auto.
Qed.

End Reconstruction.

(** ** The whole run *)

Section Run.

Context (X : External).

Variables (self : Processor) (input_filename output_filename command : pystr).

Local Abbreviation input_path := (input_path_of self input_filename).
Local Abbreviation output_path := (output_path_of self output_filename).

(** A run either stops after an empty extraction, or rewrites every page
    text and enters the [try] block with as many rewritten texts. *)
Lemma replace_outcome (w : World) :
  (exists w1,
      extract_text_from_pdf X self input_path w = (Ok [], w1) /\
      fs w1 = fs w /\ requests w1 = requests w /\
      replace_text_in_pdf X self input_filename output_filename command w
      = (Ok tt, logged NoTextExtracted w1)) \/
  (exists b d ts ms w1,
      fs w !! input_path = Some b /\ parse_pdf X b = Ok d /\
      Forall2 (fun p t => get_text p = Ok t) (pages d) ts /\
      ts <> [] /\
      for_each ts (rewrite_page X self command) [] w = (Ok ms, w1) /\
      length ms = length ts /\ fs w1 = fs w /\
      replace_text_in_pdf X self input_filename output_filename command w
      = try_except (rebuild X input_path output_path ms) log_processing_error w1).
Proof.
  destruct (extract_cases X self input_path w)
    as [(b & d & ts & Hf & Hd & Hts & Hex) | (e & Hfail & Hex)].
  - destruct ts as [|t ts].
    + left. exists w. repeat split; try assumption.
      unfold replace_text_in_pdf. cbv zeta.
      rewrite (bind_Ok _ _ _ _ _ Hex). reflexivity.
    + right.
      destruct (rewrite_pages_total X self command (t :: ts) [] w)
        as (ms & w1 & Hloop & Hlen & Hfs & _).
      exists b, d, (t :: ts), ms, w1. repeat split; try assumption; [discriminate|].
      unfold replace_text_in_pdf. cbv zeta.
      rewrite (bind_Ok _ _ _ _ _ Hex). rewrite (bind_Ok _ _ _ _ _ Hloop).
      reflexivity.
  - left. exists (logged (ErrorExtracting e) w). repeat split; try assumption.
    unfold replace_text_in_pdf. cbv zeta.
    rewrite (bind_Ok _ _ _ _ _ Hex). reflexivity.
Qed.

(** A run whose last printed line reports success read every page of the
    input, rewrote every page text and saved the rebuilt document. *)
Lemma replace_success (w : World) (b : bytes) (d : Document)
    (r : result unit) (w' : World) :
  fs w !! input_path = Some b -> parse_pdf X b = Ok d ->
  replace_text_in_pdf X self input_filename output_filename command w = (r, w') ->
  last (stdout w') = Some (ProcessedSuccessfully output_path) ->
  exists ts ms w1 nd,
    Forall2 (fun p t => get_text p = Ok t) (pages d) ts /\
    for_each ts (rewrite_page X self command) [] w = (Ok ms, w1) /\
    length ms = length (pages d) /\
    Forall2 (rebuilt_from X d) (zip (pages d) ms) nd /\
    r = Ok tt /\
    fs w' = <[output_path := pdf_bytes X nd]> (fs w).
Proof.
  intros Hf Hd Hrun Hlast.
  destruct (replace_outcome w)
    as [(w1 & _ & _ & _ & Hr) | (b' & d' & ts & ms & w1 & Hf' & Hd' & Hts & _ & Hloop & Hlen & Hfs & Hr)];
    rewrite Hr in Hrun.
  - injection Hrun as <- <-. simpl in Hlast. rewrite last_snoc in Hlast. discriminate.
  - assert (b' = b) as -> by congruence. assert (d' = d) as -> by congruence.
    unfold try_except in Hrun.
    destruct (rebuild X input_path output_path ms w1) as [[[]|e] w2] eqn:Hreb.
    + injection Hrun as <- <-.
      apply rebuild_inv in Hreb as (b2 & d2 & nd & Hf2 & Hd2 & Hnd & ->).
      rewrite Hfs in Hf2.
      assert (b2 = b) as -> by congruence. assert (d2 = d) as -> by congruence.
      exists ts, ms, w1, nd. repeat split; try assumption.
      * rewrite Hlen. symmetry. eapply Forall2_length, Hts.
      * simpl. rewrite Hfs. reflexivity.
    + unfold log_processing_error, print in Hrun. injection Hrun as <- <-.
      simpl in Hlast. rewrite last_snoc in Hlast. discriminate.
Qed.

(** The pages of a successful run, index by index. *)
Lemma replace_success_pages (w : World) (b : bytes) (d : Document)
    (r : result unit) (w' : World) :
  fs w !! input_path = Some b -> parse_pdf X b = Ok d ->
  replace_text_in_pdf X self input_filename output_filename command w = (r, w') ->
  last (stdout w') = Some (ProcessedSuccessfully output_path) ->
  exists ts ms w1 nd,
    extract_text_from_pdf X self input_path w = (Ok ts, w) /\
    for_each ts (rewrite_page X self command) [] w = (Ok ms, w1) /\
    fs w' !! output_path = Some (pdf_bytes X nd) /\
    length ms = length (pages d) /\
    length nd = length (pages d) /\
    forall i p, pages d !! i = Some p ->
                exists m np, ms !! i = Some m /\ nd !! i = Some np /\
                             rebuilt_from X d (p, m) np.
Proof.
  intros Hf Hd Hrun Hlast.
  destruct (replace_success w b d r w' Hf Hd Hrun Hlast)
    as (ts & ms & w1 & nd & Hts & Hloop & Hlen & Hnd & _ & Hfs).
  exists ts, ms, w1, nd.
  split; [eapply extract_ok; eassumption|].
  split; [assumption|].
  split; [rewrite Hfs; apply lookup_insert_eq|].
  split; [assumption|].
  assert (Hzip : length (zip (pages d) ms) = length (pages d))
    by (rewrite length_zip; lia).
  split; [rewrite <- (Forall2_length _ _ _ Hnd); exact Hzip|].
  intros i p Hi.
  destruct (lookup_lt_is_Some_2 ms i) as [m Hm].
  { rewrite Hlen. eapply lookup_lt_Some, Hi. }
  assert (Hpair : zip (pages d) ms !! i = Some (p, m))
    by (apply lookup_zip_Some; auto).
  destruct (Forall2_lookup_l _ _ _ _ _ Hnd Hpair) as (np & Hnp & Hbuilt).
  exists m, np. auto.
Qed.

End Run.

(** ** The properties of the specification *)

Section Specification.

Context (X : External).

(** C3: for a readable document of N pages (the file parses and every
    page's text can be read), [extract_text_from_pdf] returns N strings,
    the string at index i being the text of page i, in page order; it
    prints nothing. *)
Theorem extract_text_one_string_per_page (self : Processor) (pdf_path : pystr)
    (w : World) (b : bytes) (d : Document) :
  fs w !! pdf_path = Some b ->
  parse_pdf X b = Ok d ->
  Forall (fun p => exists t, get_text p = Ok t) (pages d) ->
  exists page_texts,
    extract_text_from_pdf X self pdf_path w = (Ok page_texts, w) /\
    length page_texts = length (pages d) /\
    forall i p, pages d !! i = Some p ->
                exists t, page_texts !! i = Some t /\ get_text p = Ok t.
Proof.
  intros Hf Hd Hall.
  destruct (read_pages_cases (pages d))
    as [[ts Hts] | (before & p & after & e & Hps & _ & Hp)].
  - exists ts. split; [eapply extract_ok; eassumption|].
    split; [symmetry; eapply Forall2_length, Hts|].
    intros i p Hi. eapply Forall2_lookup_l in Hts as (t & Ht & Hp); eauto.
  - exfalso. rewrite Hps in Hall.
    apply Forall_app in Hall as [_ Hall]. inversion Hall as [|? ? [t Ht] _]; subst.
    congruence.
Qed.

(** C4: when opening the document or reading its pages fails with an
    error, [extract_text_from_pdf] returns the empty list, prints the
    error, and raises nothing; files and requests are untouched. *)
Theorem extract_text_failure_gives_empty_list (self : Processor) (pdf_path : pystr)
    (w : World) (e : exn) :
  extraction_fails X w pdf_path e ->
  extract_text_from_pdf X self pdf_path w
  = (Ok [], logged (ErrorExtracting e) w).
Proof. intros H. apply extract_fails. exact H. Qed.

(** C2: when the completion call returns a response whose first choice
    carries the text s, [process_command_with_gpt] returns s without its
    leading and trailing whitespace; when the call raises, it returns the
    input text unchanged, prints the error and raises nothing. *)
Theorem process_command_strips_or_falls_back (self : Processor)
    (text command : pystr) (w : World) :
  let request := gpt_request text command in
  let outcome :=
    completions_create X (client_api_key (client self)) (requests w) request in
  (forall response c cs s,
      outcome = Ok response -> choices response = c :: cs ->
      message_content c = Some s ->
      process_command_with_gpt X self text command w = (Ok (strip s), sent request w) /\
      stripped_of s (strip s)) /\
  (forall e,
      outcome = Raise e ->
      process_command_with_gpt X self text command w
      = (Ok text, logged (ErrorGpt e) (sent request w))).
Proof.
  cbv zeta. split.
  - intros response c cs s Hcall Hcs Hc.
    split; [eapply gpt_returns_stripped; eassumption | apply strip_spec].
  - intros e Hcall. apply gpt_falls_back. exact Hcall.
Qed.

(** C5: when extraction yields the empty list, [replace_text_in_pdf]
    prints its message and returns: no completion request is sent and no
    file is written. *)
Theorem replace_text_aborts_on_empty_extraction (self : Processor)
    (input_filename output_filename command : pystr) (w w1 : World) :
  extract_text_from_pdf X self (input_path_of self input_filename) w = (Ok [], w1) ->
  replace_text_in_pdf X self input_filename output_filename command w
  = (Ok tt, logged NoTextExtracted w1) /\
  fs (logged NoTextExtracted w1) = fs w /\
  requests (logged NoTextExtracted w1) = requests w.
Proof.
  intros Hex.
  destruct (replace_outcome X self input_filename output_filename command w)
    as [(w2 & Hex2 & Hfs & Hrq & Hr) | (b & d & ts & ms & w2 & Hf & Hd & Hts & Hne & _)].
  - assert (w2 = w1) as -> by congruence. auto.
  - exfalso. rewrite (extract_ok X self _ w b d ts Hf Hd Hts) in Hex. congruence.
Qed.

(** C10: for a document that parses and has no pages,
    [extract_text_from_pdf] returns the empty list and
    [replace_text_in_pdf] prints its message and writes nothing; a run on
    an unreadable document returns the same values, sends no request and
    writes nothing either, and ends with the same message (after the line
    that reports the extraction error). *)
Theorem zero_pages_handled_like_unreadable (self : Processor)
    (input_filename output_filename command : pystr)
    (w : World) (b : bytes) (d : Document) :
  fs w !! input_path_of self input_filename = Some b ->
  parse_pdf X b = Ok d ->
  pages d = [] ->
  extract_text_from_pdf X self (input_path_of self input_filename) w = (Ok [], w) /\
  replace_text_in_pdf X self input_filename output_filename command w
  = (Ok tt, logged NoTextExtracted w) /\
  forall other_filename w2 e,
    extraction_fails X w2 (input_path_of self other_filename) e ->
    fst (extract_text_from_pdf X self (input_path_of self other_filename) w2) = Ok [] /\
    exists w2',
      replace_text_in_pdf X self other_filename output_filename command w2
      = (Ok tt, w2') /\
      fs w2' = fs w2 /\ requests w2' = requests w2 /\
      stdout w2' = stdout w2 ++ [ErrorExtracting e; NoTextExtracted].
Proof.
  intros Hf Hd Hps.
  assert (Hex : extract_text_from_pdf X self (input_path_of self input_filename) w
                = (Ok [], w)).
  { eapply extract_ok; try eassumption. rewrite Hps. constructor. }
  split; [exact Hex|]. split.
  - unfold replace_text_in_pdf. cbv zeta. rewrite (bind_Ok _ _ _ _ _ Hex). reflexivity.
  - intros other w2 e Hfail.
    pose proof (extract_fails X self _ w2 e Hfail) as Hex2.
    split; [rewrite Hex2; reflexivity|].
    exists (logged NoTextExtracted (logged (ErrorExtracting e) w2)).
    split; [|split; [reflexivity | split; [reflexivity | simpl; rewrite <- app_assoc; reflexivity]]].
    unfold replace_text_in_pdf. cbv zeta. rewrite (bind_Ok _ _ _ _ _ Hex2). reflexivity.
Qed.

(** C1: in a run that reads the input document and reports success, the
    saved document has as many pages as the input document (the smaller of
    the page count and the count of rewritten texts, which are equal), and
    the page at each index was created with the width and the height of the
    original page's rectangle. *)
Theorem output_pages_match_input_pages (self : Processor)
    (input_filename output_filename command : pystr)
    (w : World) (b : bytes) (d : Document) (r : result unit) (w' : World) :
  fs w !! input_path_of self input_filename = Some b ->
  parse_pdf X b = Ok d ->
  replace_text_in_pdf X self input_filename output_filename command w = (r, w') ->
  last (stdout w') = Some (ProcessedSuccessfully (output_path_of self output_filename)) ->
  exists (modified_page_texts : list pystr) (new_doc : NewDocument),
    fs w' !! output_path_of self output_filename = Some (pdf_bytes X new_doc) /\
    length modified_page_texts = length (pages d) /\
    length new_doc = Nat.min (length (pages d)) (length modified_page_texts) /\
    length new_doc = length (pages d) /\
    forall i page, pages d !! i = Some page ->
      exists new_page, new_doc !! i = Some new_page /\
                       np_width new_page = width (rect page) /\
                       np_height new_page = height (rect page).
Proof.
  intros Hf Hd Hrun Hlast.
  destruct (replace_success_pages X self _ _ _ w b d r w' Hf Hd Hrun Hlast)
    as (ts & ms & w1 & nd & _ & _ & Hout & Hms & Hnd & Hpages).
  exists ms, nd. repeat split; try assumption; [lia|].
  intros i page Hi.
  destruct (Hpages i page Hi) as (m & np & _ & Hnp & Hw & Hh & _).
  exists np. auto.
Qed.

(** C6 (amended): in a run that reports success, every image enumerated on
    an original page is inserted into the new page of the same index, as the
    bytes [extract_image] gives for it, with the rectangle of the page (not
    the image's own position or size) as the target of [insert_image]; the
    image is drawn where the library fits it inside that rectangle, its
    proportion kept.  The placements follow the enumeration order, one per
    image, all with the same target. *)
Theorem images_inserted_into_page_rectangle (self : Processor)
    (input_filename output_filename command : pystr)
    (w : World) (b : bytes) (d : Document) (r : result unit) (w' : World) :
  fs w !! input_path_of self input_filename = Some b ->
  parse_pdf X b = Ok d ->
  replace_text_in_pdf X self input_filename output_filename command w = (r, w') ->
  last (stdout w') = Some (ProcessedSuccessfully (output_path_of self output_filename)) ->
  exists new_doc : NewDocument,
    fs w' !! output_path_of self output_filename = Some (pdf_bytes X new_doc) /\
    forall i page, pages d !! i = Some page ->
      exists new_page imgs,
        new_doc !! i = Some new_page /\
        get_images page = Ok imgs /\
        Forall2
          (fun img placement =>
             extract_image d (xref img) = Ok (Some (ip_stream placement)) /\
             ip_rect placement = rect page /\
             width (ip_rect placement) = np_width new_page /\
             height (ip_rect placement) = np_height new_page /\
             ip_bbox placement = image_bbox X (rect page) (ip_stream placement))
          imgs (np_images new_page).
Proof.
  intros Hf Hd Hrun Hlast.
  destruct (replace_success_pages X self _ _ _ w b d r w' Hf Hd Hrun Hlast)
    as (ts & ms & w1 & nd & _ & _ & Hout & _ & _ & Hpages).
  exists nd. split; [assumption|].
  intros i page Hi.
  destruct (Hpages i page Hi) as (m & np & _ & Hnp & Hw & Hh & _ & imgs & Himgs & Hpl).
  exists np, imgs. repeat split; try assumption.
  simpl in *. eapply Forall2_impl; [exact Hpl|].
  intros img pl (Hrect & Hbytes & Hbbox). rewrite Hrect, Hw, Hh. auto.
Qed.

(** C7: in a run that reports success, the only text inserted into the new
    page of each index is the rewritten text of that index, in one call, at
    the point (50, 50) with font size 11 and no font name. *)
Theorem text_inserted_once_at_fixed_offset (self : Processor)
    (input_filename output_filename command : pystr)
    (w : World) (b : bytes) (d : Document) (r : result unit) (w' : World) :
  fs w !! input_path_of self input_filename = Some b ->
  parse_pdf X b = Ok d ->
  replace_text_in_pdf X self input_filename output_filename command w = (r, w') ->
  last (stdout w') = Some (ProcessedSuccessfully (output_path_of self output_filename)) ->
  exists (page_texts modified_page_texts : list pystr) (w1 : World)
         (new_doc : NewDocument),
    extract_text_from_pdf X self (input_path_of self input_filename) w
    = (Ok page_texts, w) /\
    for_each page_texts (rewrite_page X self command) [] w
    = (Ok modified_page_texts, w1) /\
    fs w' !! output_path_of self output_filename = Some (pdf_bytes X new_doc) /\
    length new_doc = length modified_page_texts /\
    forall i modified_text, modified_page_texts !! i = Some modified_text ->
      exists new_page,
        new_doc !! i = Some new_page /\
        np_texts new_page = [mkTextRun (50, 50) modified_text 11 None].
Proof.
  intros Hf Hd Hrun Hlast.
  destruct (replace_success_pages X self _ _ _ w b d r w' Hf Hd Hrun Hlast)
    as (ts & ms & w1 & nd & Hex & Hloop & Hout & Hms & Hnd & Hpages).
  exists ts, ms, w1, nd. repeat split; try assumption; [congruence|].
  intros i m Hm.
  destruct (lookup_lt_is_Some_2 (pages d) i) as [page Hi].
  { rewrite <- Hms. eapply lookup_lt_Some, Hm. }
  destruct (Hpages i page Hi) as (m' & np & Hm' & Hnp & _ & _ & Htexts & _).
  assert (m' = m) as -> by congruence.
  exists np. auto.
Qed.

(** C8: [replace_text_in_pdf] always returns normally; when the [try] block
    that assembles and saves the output raises an exception, the exception
    is printed and the call returns, whatever was or was not written. *)
Theorem replace_text_never_raises (self : Processor)
    (input_filename output_filename command : pystr) (w : World) :
  (exists w', replace_text_in_pdf X self input_filename output_filename command w
              = (Ok tt, w')) /\
  (forall t page_texts modified_page_texts w1 e w2,
      extract_text_from_pdf X self (input_path_of self input_filename) w
      = (Ok (t :: page_texts), w) ->
      for_each (t :: page_texts) (rewrite_page X self command) [] w
      = (Ok modified_page_texts, w1) ->
      rebuild X (input_path_of self input_filename)
        (output_path_of self output_filename) modified_page_texts w1
      = (Raise e, w2) ->
      replace_text_in_pdf X self input_filename output_filename command w
      = (Ok tt, logged (ErrorProcessing e) w2)).
Proof.
  split.
  - destruct (replace_outcome X self input_filename output_filename command w)
      as [(w1 & _ & _ & _ & Hr) | (b & d & ts & ms & w1 & _ & _ & _ & _ & _ & _ & _ & Hr)];
      rewrite Hr; [eauto|].
    unfold try_except.
    destruct (rebuild X _ _ ms w1) as [[[]|e] w2]; [eauto|].
    unfold log_processing_error, print. eauto.
  - intros t ts ms w1 e w2 Hex Hloop Hreb.
    unfold replace_text_in_pdf. cbv zeta.
    rewrite (bind_Ok _ _ _ _ _ Hex). cbv beta iota.
    rewrite (bind_Ok _ _ _ _ _ Hloop).
    unfold try_except. rewrite Hreb. reflexivity.
Qed.

(** C9: when neither the environment nor the .env file gives a key,
    [__init__] raises the key error at once, and so it does for a key that
    is the empty string; when they give a non-empty key, the key check
    passes: [__init__] returns a processor holding that key, or the error
    that escapes is the one [openai.OpenAI] or [os.makedirs] raised; and
    every processor it returns holds a non-empty key, so no later call can
    meet a missing key. *)
Theorem init_requires_nonempty_key (w : World) :
  (configured_key w = None \/ configured_key w = Some [] ->
   exists w', init X w = (Raise key_not_found, w')) /\
  (forall c k,
      configured_key w = Some (c :: k) ->
      (exists p w', init X w = (Ok p, w') /\ api_key p = c :: k /\
                    client_api_key (client p) = c :: k) \/
      (exists e w', init X w = (Raise e, w') /\
                    (client_error X (c :: k) = Some e \/
                     makedirs_error X w'
                       (os_path_join (script_dir X) [lit ".."; lit "output"])
                     = Some e))) /\
  (forall p w', init X w = (Ok p, w') ->
                api_key p <> [] /\ client_api_key (client p) = api_key p /\
                configured_key w = Some (api_key p)).
Proof.
  unfold configured_key, init, bind, load_dotenv, os_getenv. simpl.
  destruct ((environ w ∪ dotenv w) !! OPENAI_API_KEY) as [[|c k]|] eqn:Hkey.
  - split; [intros _; unfold raise; eauto|]. split; [intros ? ? [=]|].
    unfold raise. intros p w' [=].
  - split; [intros [[=]|[=]]|]. unfold openai_OpenAI.
    destruct (client_error X (c :: k)) as [e|] eqn:Hcl.
    + unfold raise. split; [|intros p w' [=]].
      intros c' k' [= <- <-]. right. exists e. eexists. split; [reflexivity|].
      left. exact Hcl.
    + unfold os_makedirs, ret. simpl.
      destruct (makedirs_error X _ _) as [e|] eqn:Hmk.
      * split; [|intros p w' [=]].
        intros c' k' [= <- <-]. right. exists e. eexists.
        split; [reflexivity|]. right. exact Hmk.
      * split.
        -- intros c' k' [= <- <-]. left. eexists _, _. split; [reflexivity|].
           simpl. auto.
        -- intros p w' [= <- <-]. simpl. auto.
  - split; [intros _; unfold raise; eauto|]. split; [intros ? ? [=]|].
    unfold raise. intros p w' [=].
Qed.

End Specification.

(** ** The properties on the sample installation *)

Lemma extract_text_sample :
  exists page_texts,
    extract_text_from_pdf sample_external sample_self sample_pdf sample_world
    = (Ok page_texts, sample_world) /\
    length page_texts = length (pages sample_doc) /\
    forall i p, pages sample_doc !! i = Some p ->
                exists t, page_texts !! i = Some t /\ get_text p = Ok t.
Proof.
  apply (extract_text_one_string_per_page sample_external sample_self sample_pdf
           sample_world [Byte.x01] sample_doc).
  - vm_compute. reflexivity.
  - reflexivity.
  - repeat econstructor.
Defined.

Lemma extract_text_broken :
  extract_text_from_pdf sample_external sample_self broken_pdf sample_world
  = (Ok [], logged (ErrorExtracting file_data_error) sample_world).
Proof.
  apply (extract_text_failure_gives_empty_list sample_external sample_self broken_pdf
           sample_world file_data_error).
  apply (fails_open _ _ _ _ [Byte.x02]).
  - vm_compute. reflexivity.
  - reflexivity.
Defined.

Lemma process_command_sample :
  (process_command_with_gpt sample_external sample_self
     (lit "Hello Startup") modification_command sample_world
   = (Ok (strip (lit "  Hello Enterprise ")),
      sent (gpt_request (lit "Hello Startup") modification_command) sample_world) /\
   stripped_of (lit "  Hello Enterprise ") (strip (lit "  Hello Enterprise "))) /\
  process_command_with_gpt sample_external sample_self
    (lit "Hello Startup") modification_command exhausted_world
  = (Ok (lit "Hello Startup"),
     logged (ErrorGpt (mkExn "RateLimitError" (lit "quota exceeded")))
       (sent (gpt_request (lit "Hello Startup") modification_command) exhausted_world)).
Proof.
  split.
  - apply (proj1 (process_command_strips_or_falls_back sample_external sample_self
                    (lit "Hello Startup") modification_command sample_world)
             (answer (lit "  Hello Enterprise "))
             (mkChoice (Some (lit "  Hello Enterprise "))) []);
      reflexivity.
  - apply (proj2 (process_command_strips_or_falls_back sample_external sample_self
                    (lit "Hello Startup") modification_command exhausted_world)).
    reflexivity.
Defined.

Lemma replace_text_broken :
  replace_text_in_pdf sample_external sample_self
    (lit "broken.pdf") (lit "modified_sample.pdf") modification_command sample_world
  = (Ok tt, logged NoTextExtracted (logged (ErrorExtracting file_data_error) sample_world)) /\
  fs (logged NoTextExtracted (logged (ErrorExtracting file_data_error) sample_world))
  = fs sample_world /\
  requests (logged NoTextExtracted (logged (ErrorExtracting file_data_error) sample_world))
  = requests sample_world.
Proof.
  apply (replace_text_aborts_on_empty_extraction sample_external sample_self
           (lit "broken.pdf") (lit "modified_sample.pdf") modification_command
           sample_world (logged (ErrorExtracting file_data_error) sample_world)).
  vm_compute. reflexivity.
Defined.

Lemma replace_text_empty_pdf :
  extract_text_from_pdf sample_external sample_self
    (input_path_of sample_self (lit "empty.pdf")) sample_world
  = (Ok [], sample_world) /\
  replace_text_in_pdf sample_external sample_self
    (lit "empty.pdf") (lit "modified_sample.pdf") modification_command sample_world
  = (Ok tt, logged NoTextExtracted sample_world) /\
  forall other_filename w2 e,
    extraction_fails sample_external w2 (input_path_of sample_self other_filename) e ->
    fst (extract_text_from_pdf sample_external sample_self
           (input_path_of sample_self other_filename) w2) = Ok [] /\
    exists w2',
      replace_text_in_pdf sample_external sample_self other_filename
        (lit "modified_sample.pdf") modification_command w2
      = (Ok tt, w2') /\
      fs w2' = fs w2 /\ requests w2' = requests w2 /\
      stdout w2' = stdout w2 ++ [ErrorExtracting e; NoTextExtracted].
Proof.
  apply (zero_pages_handled_like_unreadable sample_external sample_self
           (lit "empty.pdf") (lit "modified_sample.pdf") modification_command
           sample_world [Byte.x00] empty_doc).
  - vm_compute. reflexivity.
  - reflexivity.
  - reflexivity.
Defined.

Lemma sample_output_pages :
  exists (modified_page_texts : list pystr) (new_doc : NewDocument),
    fs (snd sample_run) !! output_path_of sample_self (lit "modified_sample.pdf")
    = Some (pdf_bytes sample_external new_doc) /\
    length modified_page_texts = length (pages sample_doc) /\
    length new_doc = Nat.min (length (pages sample_doc)) (length modified_page_texts) /\
    length new_doc = length (pages sample_doc) /\
    forall i page, pages sample_doc !! i = Some page ->
      exists new_page, new_doc !! i = Some new_page /\
                       np_width new_page = width (rect page) /\
                       np_height new_page = height (rect page).
Proof.
  apply (output_pages_match_input_pages sample_external sample_self
           (lit "sample.pdf") (lit "modified_sample.pdf") modification_command
           sample_world [Byte.x01] sample_doc (fst sample_run) (snd sample_run)).
  - vm_compute. reflexivity.
  - reflexivity.
  - vm_compute. reflexivity.
  - vm_compute. reflexivity.
Defined.

Lemma sample_output_images :
  exists new_doc : NewDocument,
    fs (snd sample_run) !! output_path_of sample_self (lit "modified_sample.pdf")
    = Some (pdf_bytes sample_external new_doc) /\
    forall i page, pages sample_doc !! i = Some page ->
      exists new_page imgs,
        new_doc !! i = Some new_page /\
        get_images page = Ok imgs /\
        Forall2
          (fun img placement =>
             extract_image sample_doc (xref img) = Ok (Some (ip_stream placement)) /\
             ip_rect placement = rect page /\
             width (ip_rect placement) = np_width new_page /\
             height (ip_rect placement) = np_height new_page /\
             ip_bbox placement
             = image_bbox sample_external (rect page) (ip_stream placement))
          imgs (np_images new_page).
Proof.
  apply (images_inserted_into_page_rectangle sample_external sample_self
           (lit "sample.pdf") (lit "modified_sample.pdf") modification_command
           sample_world [Byte.x01] sample_doc (fst sample_run) (snd sample_run)).
  - vm_compute. reflexivity.
  - reflexivity.
  - vm_compute. reflexivity.
  - vm_compute. reflexivity.
Defined.

(** C6, as stated, fails: the logo of the first sample page, 120 by 40, is
    inserted with the page rectangle [0, 0, 612, 792] as target and drawn in
    [0, 294, 612, 498], a band 204 high on a page 792 high. *)
Lemma sample_logo_is_not_drawn_full_page :
  exists (new_doc : NewDocument) (new_page : NewPage) (placement : ImagePlacement),
    for_each
      (zip (pages sample_doc) [lit "Hello Enterprise"; lit "Enterprise rocks"])
      (rebuild_page sample_external sample_doc) [] sample_world
    = (Ok new_doc, sample_world) /\
    new_doc !! 0%nat = Some new_page /\
    np_images new_page = [placement] /\
    ip_stream placement = logo_bytes /\
    ip_rect placement = mkRect (0 # 1) (0 # 1) (612 # 1) (792 # 1) /\
    ip_bbox placement = mkRect (0 # 1) (294 # 1) (612 # 1) (498 # 1) /\
    height (ip_bbox placement) = 204 # 1 /\
    np_height new_page = 792 # 1.
Proof.
  eexists _, _, _. split; [vm_compute; reflexivity|].
  split; [reflexivity|]. split; [reflexivity|].
  vm_compute. repeat split.
Qed.

Lemma sample_output_text :
  exists (page_texts modified_page_texts : list pystr) (w1 : World)
         (new_doc : NewDocument),
    extract_text_from_pdf sample_external sample_self
      (input_path_of sample_self (lit "sample.pdf")) sample_world
    = (Ok page_texts, sample_world) /\
    for_each page_texts (rewrite_page sample_external sample_self modification_command)
      [] sample_world
    = (Ok modified_page_texts, w1) /\
    fs (snd sample_run) !! output_path_of sample_self (lit "modified_sample.pdf")
    = Some (pdf_bytes sample_external new_doc) /\
    length new_doc = length modified_page_texts /\
    forall i modified_text, modified_page_texts !! i = Some modified_text ->
      exists new_page,
        new_doc !! i = Some new_page /\
        np_texts new_page = [mkTextRun (50, 50) modified_text 11 None].
Proof.
  apply (text_inserted_once_at_fixed_offset sample_external sample_self
           (lit "sample.pdf") (lit "modified_sample.pdf") modification_command
           sample_world [Byte.x01] sample_doc (fst sample_run) (snd sample_run)).
  - vm_compute. reflexivity.
  - reflexivity.
  - vm_compute. reflexivity.
  - vm_compute. reflexivity.
Defined.

Lemma replace_text_dangling_image :
  replace_text_in_pdf sample_external sample_self
    (lit "dangling.pdf") (lit "modified_sample.pdf") modification_command sample_world
  = (Ok tt,
     logged (ErrorProcessing (KeyError (lit "image")))
       (sent (gpt_request (lit "Figure 1") modification_command) sample_world)).
Proof.
  apply (proj2 (replace_text_never_raises sample_external sample_self
                  (lit "dangling.pdf") (lit "modified_sample.pdf")
                  modification_command sample_world)
           (lit "Figure 1") [] [lit "Hello Enterprise"]
           (sent (gpt_request (lit "Figure 1") modification_command) sample_world)).
  - vm_compute. reflexivity.
  - vm_compute. reflexivity.
  - vm_compute. reflexivity.
Defined.

(** The empty string counts as no key: with the variable set to it, and
    nothing else that can fail, [__init__] raises the key error. *)
Lemma empty_key_is_rejected :
  environ empty_key_world !! OPENAI_API_KEY = Some [] /\
  client_error sample_external [] = None /\
  makedirs_error sample_external (set_environ (fun env => env ∪ dotenv empty_key_world) empty_key_world)
    (os_path_join (script_dir sample_external) [lit ".."; lit "output"]) = None /\
  fst (init sample_external empty_key_world) = Raise key_not_found.
Proof. vm_compute. repeat split. Qed.

Lemma init_on_sample_installations :
  (exists w', init sample_external keyless_world = (Raise key_not_found, w')) /\
  (exists w', init sample_external empty_key_world = (Raise key_not_found, w')) /\
  ((exists p w', init sample_external dotenv_world = (Ok p, w') /\
                 api_key p = sample_key /\ client_api_key (client p) = sample_key) \/
   (exists e w', init sample_external dotenv_world = (Raise e, w') /\
                 (client_error sample_external sample_key = Some e \/
                  makedirs_error sample_external w'
                    (os_path_join (script_dir sample_external) [lit ".."; lit "output"])
                  = Some e))).
Proof.
  split; [|split].
  - apply (proj1 (init_requires_nonempty_key sample_external keyless_world)).
    left. vm_compute. reflexivity.
  - apply (proj1 (init_requires_nonempty_key sample_external empty_key_world)).
    right. vm_compute. reflexivity.
  - apply (proj1 (proj2 (init_requires_nonempty_key sample_external dotenv_world))
             115%N (lit "k-test")).
    vm_compute. reflexivity.
Defined.

(** The end-to-end scenario: two pages of 612 by 792, each with its
    rewritten text at (50, 50) in size 11, the logo of the first page over
    the whole page. *)
Example sample_rebuilt_document :
  for_each
    (zip (pages sample_doc) [lit "Hello Enterprise"; lit "Enterprise rocks"])
    (rebuild_page sample_external sample_doc) [] sample_world
  = (Ok [ mkNewPage (612 # 1) (792 # 1)
            [mkTextRun (50, 50) (lit "Hello Enterprise") 11 None]
            [mkImagePlacement letter logo_bytes
               (mkRect (0 # 1) (294 # 1) (612 # 1) (498 # 1))];
          mkNewPage (612 # 1) (792 # 1)
            [mkTextRun (50, 50) (lit "Enterprise rocks") 11 None]
            [] ],
     sample_world).
Proof. vm_compute. reflexivity. Qed.

Example sample_run_sends_one_request_per_page :
  fst sample_run = Ok tt /\
  List.map messages (requests (snd sample_run))
  = [ [system_message; user_message (lit "Hello Startup") modification_command];
      [system_message; user_message (lit "Startup rocks") modification_command] ] /\
  stdout (snd sample_run)
  = [ProcessedSuccessfully (lit "/app/src/../output/modified_sample.pdf")].
Proof. vm_compute. repeat split. Qed.

Example strip_examples :
  strip (lit "  Hello Enterprise ") = lit "Hello Enterprise" /\
  strip (lit "Enterprise rocks" ++ [LF]) = lit "Enterprise rocks" /\
  strip [160%N; 9%N; 8195%N] = [] /\
  strip (lit "a b") = lit "a b".
Proof. vm_compute. repeat split. Qed.

Example os_path_join_examples :
  os_path_join (lit "/app/src") [lit ".."; lit "input"] = lit "/app/src/../input" /\
  os_path_join (lit "/app/src/../input") [lit "sample.pdf"] = sample_pdf /\
  os_path_join (lit "/app/src/../input") [lit "/etc/passwd"] = lit "/etc/passwd" /\
  os_path_join (lit "out/") [lit "a.pdf"] = lit "out/a.pdf".
Proof. vm_compute. repeat split. Qed.

(** * Further properties of the code *)

(** ** Startup: [__init__] and [main] *)

(** An installation whose variable is set to the empty string while the
    .env file assigns a key. *)
Definition shadowed_world : World :=
  mkWorld {[ OPENAI_API_KEY := [] ]} {[ OPENAI_API_KEY := sample_key ]}
    sample_files ∅ [] [].

Section Startup.

Context (X : External).

(** The world after [load_dotenv()]. *)
Definition dotenv_loaded (w : World) : World :=
  set_environ (fun env => env ∪ dotenv w) w.

(** [os.path.join(self.script_dir, "..", "output")]. *)
Definition default_output_dir : pystr :=
  os_path_join (script_dir X) [lit ".."; lit "output"].

(** The four ways [__init__] ends. *)
Lemma init_cases (w : World) :
  match configured_key w with
  | Some (c :: k) =>
      match client_error X (c :: k) with
      | Some e => init X w = (Raise e, dotenv_loaded w)
      | None =>
          match makedirs_error X (dotenv_loaded w) default_output_dir with
          | Some e => init X w = (Raise e, dotenv_loaded w)
          | None =>
              init X w
              = (Ok (mkProcessor (c :: k) (mkClient (c :: k)) (script_dir X)
                       (os_path_join (script_dir X) [lit ".."; lit "input"])
                       default_output_dir),
                 set_dirs (fun d => d ∪ {[default_output_dir]}) (dotenv_loaded w))
          end
      end
  | _ => init X w = (Raise key_not_found, dotenv_loaded w)
  end.
Proof.
  unfold configured_key, init, bind, load_dotenv, os_getenv, dotenv_loaded,
    default_output_dir. simpl.
  destruct ((environ w ∪ dotenv w) !! OPENAI_API_KEY) as [[|c k]|]; try reflexivity.
  unfold openai_OpenAI.
  destruct (client_error X (c :: k)); [reflexivity|].
  unfold os_makedirs, ret. simpl.
  destruct (makedirs_error X _ _); reflexivity.
Qed.

(** X1: A completed [__init__] derives both directories from the script's
    directory, creates the output directory, and does nothing else: no file
    is written, nothing is printed, no request is sent, every variable of
    the environment keeps its value, and an assignment of the .env file
    takes effect only for a variable that was not set. *)
Theorem init_creates_output_dir_only (w : World) (p : Processor) (w' : World) :
  init X w = (Ok p, w') ->
  input_dir p = os_path_join (script_dir X) [lit ".."; lit "input"] /\
  output_dir p = os_path_join (script_dir X) [lit ".."; lit "output"] /\
  dirs w' = dirs w ∪ {[output_dir p]} /\
  fs w' = fs w /\ stdout w' = stdout w /\ requests w' = requests w /\
  (forall name v, environ w !! name = Some v -> environ w' !! name = Some v) /\
  (forall name, environ w !! name = None -> environ w' !! name = dotenv w !! name).
Proof.
  intros Hinit. pose proof (init_cases w) as Hc.
  destruct (configured_key w) as [[|c k]|]; try congruence.
  destruct (client_error X (c :: k)); [congruence|].
  destruct (makedirs_error X _ _); [congruence|].
  rewrite Hc in Hinit. injection Hinit as <- <-. simpl.
  repeat split; try reflexivity.
  - intros name v Hv. apply lookup_union_Some_l. exact Hv.
  - intros name Hnone. apply lookup_union_r. exact Hnone.
Qed.

(** X2: A variable that is set decides alone: the .env file cannot replace it.
    Set to the empty string it makes [__init__] raise the key error whatever
    the .env file assigns; otherwise it is the key of every processor
    [__init__] returns. *)
Theorem environment_variable_shadows_dotenv (w : World) (v : pystr) :
  environ w !! OPENAI_API_KEY = Some v ->
  (v = [] -> init X w = (Raise key_not_found, dotenv_loaded w)) /\
  (forall p w', init X w = (Ok p, w') -> api_key p = v).
Proof.
  intros Hv. pose proof (init_cases w) as Hc.
  assert (Hk : configured_key w = Some v).
  { unfold configured_key. apply lookup_union_Some_l. exact Hv. }
  rewrite Hk in Hc. split.
  - intros ->. exact Hc.
  - intros p w' Hinit. destruct v as [|c k]; [congruence|].
    destruct (client_error X (c :: k)); [congruence|].
    destruct (makedirs_error X _ _); [congruence|].
    rewrite Hc in Hinit. injection Hinit as <- <-. reflexivity.
Qed.

(** [replace_text_in_pdf] returns normally in every world. *)
Lemma replace_returns (self : Processor)
    (input_filename output_filename command : pystr) (w : World) :
  exists w', replace_text_in_pdf X self input_filename output_filename command w
             = (Ok tt, w').
Proof.
  destruct (replace_outcome X self input_filename output_filename command w)
    as [(w1 & _ & _ & _ & Hr) | (b & d & ts & ms & w1 & _ & _ & _ & _ & _ & _ & _ & Hr)];
    rewrite Hr; [eauto|].
  unfold try_except.
  destruct (rebuild X _ _ ms w1) as [[[]|e] w2]; [eauto|].
  unfold log_processing_error, print. eauto.
Qed.

(** X3: [main] does not handle the constructor's error: whenever
    [__init__] raises, the same error escapes [main], and by then no file
    was written, nothing was printed and no request was sent.  In
    particular, without a usable key (none, or the empty string) [main]
    raises the key error. *)
Theorem startup_error_escapes_main (w : World) :
  (forall e w',
      init X w = (Raise e, w') ->
      main X w = (Raise e, w') /\
      fs w' = fs w /\ stdout w' = stdout w /\ requests w' = requests w) /\
  (configured_key w = None \/ configured_key w = Some [] ->
   main X w = (Raise key_not_found, dotenv_loaded w)).
Proof.
  pose proof (init_cases w) as Hc. unfold main, bind. split.
  - intros e w' Hinit. rewrite Hinit. split; [reflexivity|].
    destruct (configured_key w) as [[|c k]|].
    + rewrite Hc in Hinit. injection Hinit as <- <-. simpl. auto.
    + destruct (client_error X (c :: k)).
      * rewrite Hc in Hinit. injection Hinit as <- <-. simpl. auto.
      * destruct (makedirs_error X _ _); rewrite Hc in Hinit; [|discriminate].
        injection Hinit as <- <-. simpl. auto.
    + rewrite Hc in Hinit. injection Hinit as <- <-. simpl. auto.
  - intros [Hk | Hk]; rewrite Hk in Hc; rewrite Hc; reflexivity.
Qed.

End Startup.

Lemma init_on_sample_world :
  input_dir sample_self = os_path_join (script_dir sample_external) [lit ".."; lit "input"] /\
  output_dir sample_self = os_path_join (script_dir sample_external) [lit ".."; lit "output"] /\
  dirs (snd (init sample_external sample_world))
  = dirs sample_world ∪ {[output_dir sample_self]} /\
  fs (snd (init sample_external sample_world)) = fs sample_world /\
  stdout (snd (init sample_external sample_world)) = stdout sample_world /\
  requests (snd (init sample_external sample_world)) = requests sample_world /\
  (forall name v, environ sample_world !! name = Some v ->
                  environ (snd (init sample_external sample_world)) !! name = Some v) /\
  (forall name, environ sample_world !! name = None ->
                environ (snd (init sample_external sample_world)) !! name
                = dotenv sample_world !! name).
Proof.
  apply (init_creates_output_dir_only sample_external sample_world sample_self
           (snd (init sample_external sample_world))).
  vm_compute. reflexivity.
Defined.

Lemma init_on_shadowed_world :
  dotenv shadowed_world !! OPENAI_API_KEY = Some sample_key /\
  init sample_external shadowed_world
  = (Raise key_not_found, dotenv_loaded shadowed_world).
Proof.
  split; [vm_compute; reflexivity|].
  refine (proj1 (environment_variable_shadows_dotenv sample_external
                   shadowed_world [] _) eq_refl).
  vm_compute. reflexivity.
Defined.

Lemma main_on_keyless_world :
  main sample_external keyless_world
  = (Raise key_not_found, dotenv_loaded keyless_world).
Proof.
  apply (proj2 (startup_error_escapes_main sample_external keyless_world)).
  left. vm_compute. reflexivity.
Defined.

(** ** The rewrite call and the rewrite loop *)

(** What stands between the command and the text in the user message. *)
Definition text_separator : pystr := [LF; LF] ++ lit "Original Text:" ++ [LF].

(** A service that answers every request with blanks. *)
Definition blank_external : External :=
  mkExternal
    (script_dir sample_external) (makedirs_error sample_external)
    (parse_pdf sample_external) (no_such_file sample_external)
    (fun _ _ _ => Ok (answer [32%N; 9%N; LF]))
    (new_page_error sample_external) (insert_text_error sample_external)
    (insert_image_error sample_external) (pdf_bytes sample_external)
    (save_error sample_external) (client_error sample_external)
    (image_bbox sample_external) (failed_save_dirs sample_external).

Lemma lstrip_all_space (s : pystr) : all_space s -> lstrip s = [].
Proof.
  induction 1 as [|c s Hc _ IH]; simpl; [reflexivity|].
  rewrite Hc. exact IH.
Qed.

Lemma strip_all_space (s : pystr) : all_space s -> strip s = [].
Proof. intros H. unfold strip. rewrite (lstrip_all_space s H). reflexivity. Qed.

Section RewriteLoop.

Context (X : External).

(** X4: The request does not escape the separator: a text that contains it and
    a command that contains it give the same request, so the service cannot
    tell where the command ends; the two texts differ. *)
Theorem request_boundary_is_ambiguous (a b c : pystr) :
  gpt_request (b ++ text_separator ++ c) a
  = gpt_request c (a ++ text_separator ++ b) /\
  b ++ text_separator ++ c <> c.
Proof.
  split.
  - unfold gpt_request, user_message, text_separator. do 3 f_equal.
    rewrite <- !app_assoc. reflexivity.
  - intros H. apply (f_equal length) in H. rewrite !length_app in H.
    simpl in H. lia.
Qed.

(** X5: An answer made of whitespace only is accepted: the call returns the
    empty string, not the original text, and prints nothing. *)
Theorem blank_answer_gives_empty_text (self : Processor) (text command : pystr)
    (w : World) (response : Response) (c : Choice) (cs : list Choice) (s : pystr) :
  completions_create X (client_api_key (client self)) (requests w)
    (gpt_request text command) = Ok response ->
  choices response = c :: cs ->
  message_content c = Some s ->
  all_space s ->
  process_command_with_gpt X self text command w
  = (Ok [], sent (gpt_request text command) w).
Proof.
  intros Hcall Hcs Hc Hs.
  rewrite (gpt_returns_stripped X self text command w response c cs s Hcall Hcs Hc).
  rewrite (strip_all_space s Hs). reflexivity.
Qed.

(** The outcome of the completion call for [text] after the requests [sent_before]. *)
Definition call_outcome (self : Processor) (command : pystr)
    (sent_before : list Request) (text : pystr) : result Response :=
  completions_create X (client_api_key (client self)) sent_before
    (gpt_request text command).

(** [m] is what a rewrite call returns for [text] when the completion call
    ends as [outcome]: the text itself after an error, the stripped answer
    when the first choice carries one. *)
Definition rewrite_result (outcome : result Response) (text m : pystr) : Prop :=
  (forall e, outcome = Raise e -> m = text) /\
  (forall response c cs s,
      outcome = Ok response -> choices response = c :: cs ->
      message_content c = Some s -> m = strip s).

Lemma gpt_result (self : Processor) (text command : pystr) (w : World) :
  exists m w',
    process_command_with_gpt X self text command w = (Ok m, w') /\
    requests w' = requests w ++ [gpt_request text command] /\
    rewrite_result (call_outcome self command (requests w) text) text m.
Proof.
  unfold rewrite_result, call_outcome.
  destruct (completions_create X (client_api_key (client self)) (requests w)
              (gpt_request text command)) as [response|e] eqn:Hcall.
  - destruct (choices response) as [|c cs] eqn:Hcs;
      [|destruct (message_content c) as [s|] eqn:Hc].
    + destruct (gpt_total X self text command w) as (m & w' & Hm & _ & Hrq).
      exists m, w'. repeat split; try assumption; [discriminate|].
      intros r c cs s [= <-]. congruence.
    + eexists _, _. split; [eapply gpt_returns_stripped; eassumption|].
      split; [reflexivity|]. split; [discriminate|].
      intros r c' cs' s' [= <-] Hcs' Hc'. congruence.
    + destruct (gpt_total X self text command w) as (m & w' & Hm & _ & Hrq).
      exists m, w'. repeat split; try assumption; [discriminate|].
      intros r c' cs' s' [= <-] Hcs' Hc'. congruence.
  - eexists _, _. split; [eapply gpt_falls_back; eassumption|].
    split; [reflexivity|]. split; [congruence | discriminate].
Qed.

Lemma rewrite_pages_pointwise (self : Processor) (command : pystr)
    (ts acc : list pystr) (w : World) :
  exists ms w1,
    for_each ts (rewrite_page X self command) acc w = (Ok (acc ++ ms), w1) /\
    length ms = length ts /\
    forall i t, ts !! i = Some t ->
      exists m, ms !! i = Some m /\
        rewrite_result
          (call_outcome self command
             (requests w ++ List.map (fun t' => gpt_request t' command) (take i ts)) t)
          t m.
Proof.
  revert acc w. induction ts as [|t ts IH]; intros acc w; simpl.
  - exists [], w. unfold ret. rewrite app_nil_r. repeat split.
    intros i t [=].
  - destruct (gpt_result self t command w) as (m & w1 & Hm & Hrq & Hres).
    unfold bind at 1, rewrite_page at 1, bind. rewrite Hm. unfold ret.
    destruct (IH (acc ++ [m]) w1) as (ms & w2 & Hloop & Hlen & Hpt).
    exists (m :: ms), w2. rewrite Hloop, <- app_assoc. simpl.
    repeat split; [congruence|].
    intros [|i] t' Hi; simpl in Hi.
    + injection Hi as <-. exists m. split; [reflexivity|].
      simpl. rewrite app_nil_r. exact Hres.
    + destruct (Hpt i t' Hi) as (m' & Hm' & Hres'). exists m'.
      split; [exact Hm'|]. simpl.
      rewrite Hrq, <- app_assoc in Hres'. exact Hres'.
Qed.

(** X6: The rewrite loop treats every page on its own: it returns one string
    per page text, and the string at index i is the stripped answer to the
    request for text i, sent after the requests for the texts before it, or
    text i itself when that call raised.  A failed page neither stops the
    loop nor changes another page. *)
Theorem rewrite_loop_is_pagewise (self : Processor) (command : pystr)
    (page_texts : list pystr) (w : World) :
  exists modified_page_texts w1,
    for_each page_texts (rewrite_page X self command) [] w
    = (Ok modified_page_texts, w1) /\
    length modified_page_texts = length page_texts /\
    forall i text, page_texts !! i = Some text ->
      exists modified_text,
        modified_page_texts !! i = Some modified_text /\
        rewrite_result
          (call_outcome self command
             (requests w ++ List.map (fun t => gpt_request t command) (take i page_texts))
             text)
          text modified_text.
Proof.
  destruct (rewrite_pages_pointwise self command page_texts [] w)
    as (ms & w1 & Hloop & Hlen & Hpt).
  exists ms, w1. auto.
Qed.

(** When the service fails on every request, the loop returns the page
    texts unchanged and prints one error line per page. *)
Lemma rewrite_pages_all_fail (self : Processor) (command : pystr)
    (ts acc : list pystr) (w : World) :
  (forall extra request,
      exists e, completions_create X (client_api_key (client self))
                  (requests w ++ extra) request = Raise e) ->
  exists errors w1,
    for_each ts (rewrite_page X self command) acc w = (Ok (acc ++ ts), w1) /\
    length errors = length ts /\
    stdout w1 = stdout w ++ List.map ErrorGpt errors /\
    fs w1 = fs w.
Proof.
  revert acc w. induction ts as [|t ts IH]; intros acc w Hfail; simpl.
  - exists [], w. unfold ret. rewrite !app_nil_r. auto.
  - destruct (Hfail [] (gpt_request t command)) as [e He].
    rewrite app_nil_r in He.
    unfold bind at 1, rewrite_page at 1, bind.
    rewrite (gpt_falls_back X self t command w e He). unfold ret.
    destruct (IH (acc ++ [t])
                (logged (ErrorGpt e) (sent (gpt_request t command) w)))
      as (errors & w1 & Hloop & Hlen & Hout & Hfs).
    { intros extra request. simpl. rewrite <- app_assoc. apply Hfail. }
    exists (e :: errors), w1. rewrite Hloop, <- app_assoc. simpl.
    repeat split; [congruence | | exact Hfs].
    rewrite Hout. simpl. rewrite <- app_assoc. reflexivity.
Qed.

(** X7: With a service that fails on every request, a run that reports success
    saved a document whose page i carries the original text of page i, in
    the one text run at (50, 50). *)
Theorem failing_service_keeps_original_text (self : Processor)
    (input_filename output_filename command : pystr)
    (w : World) (b : bytes) (d : Document) (r : result unit) (w' : World) :
  (forall extra request,
      exists e, completions_create X (client_api_key (client self))
                  (requests w ++ extra) request = Raise e) ->
  fs w !! input_path_of self input_filename = Some b ->
  parse_pdf X b = Ok d ->
  replace_text_in_pdf X self input_filename output_filename command w = (r, w') ->
  last (stdout w') = Some (ProcessedSuccessfully (output_path_of self output_filename)) ->
  exists new_doc : NewDocument,
    fs w' !! output_path_of self output_filename = Some (pdf_bytes X new_doc) /\
    length new_doc = length (pages d) /\
    forall i page, pages d !! i = Some page ->
      exists text new_page,
        get_text page = Ok text /\
        new_doc !! i = Some new_page /\
        np_texts new_page = [mkTextRun (50, 50) text 11 None].
Proof.
  intros Hfail Hf Hd Hrun Hlast.
  destruct (replace_success X self _ _ _ w b d r w' Hf Hd Hrun Hlast)
    as (ts & ms & w1 & nd & Hts & Hloop & Hlen & Hnd & _ & Hfs).
  destruct (rewrite_pages_all_fail self command ts [] w Hfail)
    as (errors & w1' & Hloop' & _).
  rewrite Hloop in Hloop'. injection Hloop' as -> _.
  exists nd. split; [rewrite Hfs; apply lookup_insert_eq|].
  assert (Hzip : length (zip (pages d) ts) = length (pages d))
    by (rewrite length_zip; lia).
  split; [rewrite <- (Forall2_length _ _ _ Hnd); exact Hzip|].
  intros i page Hi.
  destruct (Forall2_lookup_l _ _ _ _ _ Hts Hi) as (t & Ht & Hpt).
  assert (Hpair : zip (pages d) ts !! i = Some (page, t))
    by (apply lookup_zip_Some; auto).
  destruct (Forall2_lookup_l _ _ _ _ _ Hnd Hpair) as (np & Hnp & _ & _ & Htexts & _).
  exists t, np. auto.
Qed.

End RewriteLoop.

(** ** What a run does to the world *)

(** [w'] differs from [w] at most in what was printed and which requests
    were sent. *)
Definition only_talks (w w' : World) : Prop :=
  environ w' = environ w /\ dotenv w' = dotenv w /\ fs w' = fs w /\ dirs w' = dirs w.

Section Effects.

Context (X : External).

Lemma only_talks_refl (w : World) : only_talks w w.
Proof. unfold only_talks. auto. Qed.

Lemma only_talks_trans (w1 w2 w3 : World) :
  only_talks w1 w2 -> only_talks w2 w3 -> only_talks w1 w3.
Proof. unfold only_talks. intuition congruence. Qed.

Ltac solve_talk := unfold only_talks, logged, sent, print, ret; simpl; auto.

Lemma gpt_only_talks (self : Processor) (text command : pystr) (w : World) :
  only_talks w (snd (process_command_with_gpt X self text command w)).
Proof.
  unfold process_command_with_gpt, try_except, bind, chat_completions_create,
    first_choice_stripped.
  destruct (completions_create _ _ _ _) as [response|e]; [|solve_talk].
  destruct (choices response) as [|c cs]; [solve_talk|].
  destruct (message_content c); solve_talk.
Qed.

Lemma rewrite_pages_only_talk (self : Processor) (command : pystr)
    (ts acc : list pystr) (w : World) :
  only_talks w (snd (for_each ts (rewrite_page X self command) acc w)).
Proof.
  revert acc w. induction ts as [|t ts IH]; intros acc w; simpl.
  - apply only_talks_refl.
  - pose proof (gpt_only_talks self t command w) as Hstep.
    destruct (gpt_total X self t command w) as (m & w1 & Hm & _).
    unfold bind at 1, rewrite_page at 1, bind. rewrite Hm in *. unfold ret.
    eapply only_talks_trans; [exact Hstep | apply IH].
Qed.

(** X8: Extraction never raises, sends no request and writes nothing, and its
    result is all or nothing: the text of every page, in order and with
    nothing printed, or the empty list, whatever pages could be read before
    the failure. *)
Theorem extraction_is_all_or_nothing (self : Processor) (pdf_path : pystr) (w : World) :
  exists page_texts w',
    extract_text_from_pdf X self pdf_path w = (Ok page_texts, w') /\
    only_talks w w' /\ requests w' = requests w /\
    ((exists b d,
         fs w !! pdf_path = Some b /\ parse_pdf X b = Ok d /\
         Forall2 (fun page text => get_text page = Ok text) (pages d) page_texts /\
         w' = w) \/
     (exists e,
         page_texts = [] /\ extraction_fails X w pdf_path e /\
         stdout w' = stdout w ++ [ErrorExtracting e])).
Proof.
  destruct (extract_cases X self pdf_path w)
    as [(b & d & ts & Hf & Hd & Hts & Hex) | (e & Hfail & Hex)].
  - exists ts, w. split; [exact Hex|]. split; [apply only_talks_refl|].
    split; [reflexivity|]. left. exists b, d. auto.
  - exists [], (logged (ErrorExtracting e) w). split; [exact Hex|].
    split; [solve_talk|]. split; [reflexivity|]. right. exists e. auto.
Qed.

(** The three ways the [try] block ends: it raises before [save] is
    called, [save] raises, or it completes.  [save] is reached only with a
    document rebuilt from every pair of a page and a text. *)
Lemma rebuild_cases (input_path output_path : pystr) (ms : list pystr)
    (w : World) (r : result unit) (w' : World) :
  rebuild X input_path output_path ms w = (r, w') ->
  (exists e, r = Raise e /\ w' = w) \/
  (exists b d nd,
      fs w !! input_path = Some b /\ parse_pdf X b = Ok d /\
      Forall2 (rebuilt_from X d) (zip (pages d) ms) nd /\
      ((exists e left_behind,
           r = Raise e /\ save_error X w output_path nd = Some (e, left_behind) /\
           w' = failed_save X nd output_path left_behind w) \/
       (r = Ok tt /\ save_error X w output_path nd = None /\
        w' = logged (ProcessedSuccessfully output_path)
               (set_fs (fun f => <[output_path := pdf_bytes X nd]> f) w)))).
Proof.
  unfold rebuild, bind at 1, fitz_open.
  destruct (fs w !! input_path) as [b|] eqn:Hf; [|intros [= <- <-]; eauto].
  destruct (parse_pdf X b) as [d|e] eqn:Hd; [|intros [= <- <-]; eauto].
  unfold bind at 1.
  destruct (for_each (zip (pages d) ms) (rebuild_page X d) [] w)
    as [[nd|e] w1] eqn:Hloop.
  - apply rebuild_pages_inv in Hloop as (-> & nps & -> & Hnps). simpl.
    unfold bind, save, close, ret, print.
    destruct (save_error X w output_path nps) as [[e left_behind]|] eqn:Hsave;
      intros [= <- <-].
    + right. exists b, d, nps. do 3 (split; [assumption || reflexivity|]). left. eauto.
    + right. exists b, d, nps. do 3 (split; [assumption || reflexivity|]). right. auto.
  - pose proof (rebuild_pages_world X d (zip (pages d) ms) [] w) as Hw.
    rewrite Hloop in Hw. simpl in Hw. subst w1. intros [= <- <-]. eauto.
Qed.

(** A whole run, step by step. *)
Lemma replace_trace (self : Processor)
    (input_filename output_filename command : pystr) (w : World) :
  exists ts w0,
    extract_text_from_pdf X self (input_path_of self input_filename) w = (Ok ts, w0) /\
    only_talks w w0 /\ requests w0 = requests w /\
    ((ts = [] /\
      replace_text_in_pdf X self input_filename output_filename command w
      = (Ok tt, logged NoTextExtracted w0)) \/
     (ts <> [] /\
      exists b d ms w1 r1 w2,
        fs w !! input_path_of self input_filename = Some b /\
        parse_pdf X b = Ok d /\
        Forall2 (fun page text => get_text page = Ok text) (pages d) ts /\
        for_each ts (rewrite_page X self command) [] w0 = (Ok ms, w1) /\
        length ms = length ts /\
        only_talks w0 w1 /\
        requests w1 = requests w0 ++ List.map (fun t => gpt_request t command) ts /\
        stdout w0 = stdout w /\
        rebuild X (input_path_of self input_filename)
          (output_path_of self output_filename) ms w1 = (r1, w2) /\
        replace_text_in_pdf X self input_filename output_filename command w
        = (Ok tt, match r1 with
                  | Ok _ => w2
                  | Raise e => logged (ErrorProcessing e) w2
                  end))).
Proof.
  destruct (extraction_is_all_or_nothing self (input_path_of self input_filename) w)
    as (ts & w0 & Hex & Htalk & Hrq & Hall).
  exists ts, w0. do 3 (split; [assumption|]).
  unfold replace_text_in_pdf. cbv zeta. rewrite (bind_Ok _ _ _ _ _ Hex).
  destruct ts as [|t ts]; [left; auto|]. right. split; [discriminate|].
  destruct Hall as [(b & d & Hf & Hd & Hts & ->) | (e & [=] & _)].
  pose proof (rewrite_pages_only_talk self command (t :: ts) [] w) as Htalk1.
  destruct (rewrite_pages_total X self command (t :: ts) [] w)
    as (ms & w1 & Hloop & Hlen & _ & Hrq1).
  change ([] ++ ms) with ms in Hloop.
  rewrite Hloop in Htalk1. simpl in Htalk1.
  rewrite (bind_Ok _ _ _ _ _ Hloop). unfold try_except.
  destruct (rebuild X (input_path_of self input_filename)
              (output_path_of self output_filename) ms w1) as [r1 w2] eqn:Hreb.
  exists b, d, ms, w1, r1, w2. do 9 (split; [assumption || reflexivity|]).
  destruct r1 as [[]|e]; reflexivity.
Qed.

(** The [try] block sends no request and leaves the environment alone;
    among the files it changes at most the one at the output path. *)
Lemma rebuild_effect (input_path output_path : pystr) (ms : list pystr)
    (w : World) (r : result unit) (w' : World) :
  rebuild X input_path output_path ms w = (r, w') ->
  environ w' = environ w /\ dotenv w' = dotenv w /\
  requests w' = requests w /\
  (fs w' = fs w \/ exists content, fs w' = <[output_path := content]> (fs w)).
Proof.
  intros H.
  destruct (rebuild_cases _ _ _ _ _ _ H)
    as [(e & _ & ->) | (b & d & nd & _ & _ & _ &
                        [(e & [partial|] & _ & _ & ->) | (_ & _ & ->)])];
    simpl; eauto 10.
Qed.

(** X9: A run sends exactly one request per extracted page text, in page order,
    each carrying that text and the command, whether or not the output is
    then written; after an empty extraction it sends none. *)
Theorem run_sends_one_request_per_page (self : Processor)
    (input_filename output_filename command : pystr) (w : World) :
  exists page_texts w0 w',
    extract_text_from_pdf X self (input_path_of self input_filename) w
    = (Ok page_texts, w0) /\
    replace_text_in_pdf X self input_filename output_filename command w = (Ok tt, w') /\
    requests w' = requests w ++ List.map (fun t => gpt_request t command) page_texts.
Proof.
  destruct (replace_trace self input_filename output_filename command w)
    as (ts & w0 & Hex & _ & Hrq & [[-> Hr] | [_ Hrun]]).
  - exists [], w0, (logged NoTextExtracted w0). repeat split; try assumption.
    simpl. rewrite app_nil_r. exact Hrq.
  - destruct Hrun as (b & d & ms & w1 & r1 & w2 & _ & _ & _ & _ & _ & _ & Hrq1 & _ & Hreb & Hr).
    eexists ts, w0, _. repeat split; try eassumption.
    destruct (rebuild_effect _ _ _ _ _ _ Hreb) as (_ & _ & Hrq2 & _).
    rewrite Hrq in Hrq1. rewrite <- Hrq1, <- Hrq2.
    destruct r1; reflexivity.
Qed.

(** X11: The last line a run prints tells what happened.  After the no-text
    line nothing was written and no request sent; after the success line
    the output path holds the saved document; after an error line the files
    are untouched, unless it was [save] itself that raised and left a
    partial file at the output path. *)
Theorem run_reports_its_outcome (self : Processor)
    (input_filename output_filename command : pystr) (w : World) :
  exists w',
    replace_text_in_pdf X self input_filename output_filename command w = (Ok tt, w') /\
    ((last (stdout w') = Some NoTextExtracted /\
      fs w' = fs w /\ requests w' = requests w) \/
     (last (stdout w')
      = Some (ProcessedSuccessfully (output_path_of self output_filename)) /\
      exists nd : NewDocument,
        fs w' = <[output_path_of self output_filename := pdf_bytes X nd]> (fs w)) \/
     (exists e,
         last (stdout w') = Some (ErrorProcessing e) /\
         (fs w' = fs w \/
          exists w1 (nd : NewDocument) partial,
            save_error X w1 (output_path_of self output_filename) nd
            = Some (e, Some partial) /\
            fs w' = <[output_path_of self output_filename := partial]> (fs w)))).
Proof.
  destruct (replace_trace self input_filename output_filename command w)
    as (ts & w0 & Hex & (_ & _ & Hf0 & _) & Hrq & [[-> Hr] | [_ Hrun]]).
  - exists (logged NoTextExtracted w0). split; [exact Hr|]. left. simpl.
    rewrite last_snoc. auto.
  - destruct Hrun as (b & d & ms & w1 & r1 & w2 & _ & _ & _ & _ & _ &
                      (_ & _ & Hf1 & _) & _ & _ & Hreb & Hr).
    eexists. split; [exact Hr|]. right.
    destruct (rebuild_cases _ _ _ _ _ _ Hreb)
      as [(e & -> & ->) | (b' & d' & nd & _ & _ & _ &
                           [(e & [partial|] & -> & Hsave & ->) | (-> & _ & ->)])].
    + right. exists e. simpl. rewrite last_snoc. split; [reflexivity|].
      left. congruence.
    + right. exists e. simpl. rewrite last_snoc. split; [reflexivity|].
      right. exists w1, nd, partial. split; [exact Hsave | congruence].
    + right. exists e. simpl. rewrite last_snoc. split; [reflexivity|].
      left. congruence.
    + left. simpl. rewrite last_snoc. split; [reflexivity|].
      exists nd. congruence.
Qed.

(** X12: The page loop pairs pages and texts until the shorter list runs out:
    when the [try] block completes on a list of texts of any length, the
    saved document has as many pages as the shorter of the two lists, page
    i built from original page i and text i. *)
Theorem reconstruction_stops_at_the_shorter_list (input_path output_path : pystr)
    (modified_page_texts : list pystr) (w w' : World) (b : bytes) (d : Document) :
  fs w !! input_path = Some b ->
  parse_pdf X b = Ok d ->
  rebuild X input_path output_path modified_page_texts w = (Ok tt, w') ->
  exists new_doc : NewDocument,
    fs w' !! output_path = Some (pdf_bytes X new_doc) /\
    length new_doc = Nat.min (length (pages d)) (length modified_page_texts) /\
    forall i new_page, new_doc !! i = Some new_page ->
      exists page modified_text,
        pages d !! i = Some page /\
        modified_page_texts !! i = Some modified_text /\
        np_width new_page = width (rect page) /\
        np_height new_page = height (rect page) /\
        np_texts new_page = [mkTextRun (50, 50) modified_text 11 None].
Proof.
  intros Hf Hd Hreb.
  apply rebuild_inv in Hreb as (b' & d' & nd & Hf' & Hd' & Hnd & ->).
  assert (b' = b) as -> by congruence. assert (d' = d) as -> by congruence.
  exists nd. split; [simpl; apply lookup_insert_eq|].
  split; [rewrite <- (Forall2_length _ _ _ Hnd); apply length_zip|].
  intros i np Hnp.
  destruct (Forall2_lookup_r _ _ _ _ _ Hnd Hnp) as ([page m] & Hpair & Hw & Hh & Ht & _).
  apply lookup_zip_Some in Hpair as [Hp Hm].
  exists page, m. auto.
Qed.

(** X13: One image that cannot be extracted costs the whole output: when some
    page lists an image for which [extract_image] raises or gives no
    ["image"] entry, the run never reports success and writes no file. *)
Theorem unextractable_image_loses_the_output (self : Processor)
    (input_filename output_filename command : pystr)
    (w : World) (b : bytes) (d : Document)
    (i j : nat) (page : Page) (imgs : list ImageItem) (img : ImageItem) :
  fs w !! input_path_of self input_filename = Some b ->
  parse_pdf X b = Ok d ->
  pages d !! i = Some page ->
  get_images page = Ok imgs ->
  imgs !! j = Some img ->
  (extract_image d (xref img) = Ok None \/
   exists e, extract_image d (xref img) = Raise e) ->
  exists w',
    replace_text_in_pdf X self input_filename output_filename command w = (Ok tt, w') /\
    fs w' = fs w /\
    (last (stdout w') = Some NoTextExtracted \/
     exists e, last (stdout w') = Some (ErrorProcessing e)).
Proof.
  intros Hf Hd Hi Himgs Hj Hbad.
  destruct (replace_trace self input_filename output_filename command w)
    as (ts & w0 & Hex & (_ & _ & Hf0 & _) & Hrq & [[-> Hr] | [_ Hrun]]).
  - exists (logged NoTextExtracted w0). split; [exact Hr|]. simpl.
    rewrite last_snoc. auto.
  - destruct Hrun as (b' & d' & ms & w1 & r1 & w2 & Hf' & Hd' & Hts & _ & Hlen &
                      (_ & _ & Hf1 & _) & _ & _ & Hreb & Hr).
    assert (b' = b) as -> by congruence. assert (d' = d) as -> by congruence.
    eexists. split; [exact Hr|].
    destruct (rebuild_cases _ _ _ _ _ _ Hreb)
      as [(e & -> & ->) | (b2 & d2 & nd & Hf2 & Hd2 & Hnd & _)].
    + simpl. rewrite last_snoc. split; [congruence | eauto].
    + exfalso. rewrite Hf1, Hf0 in Hf2.
      assert (b2 = b) as -> by congruence. assert (d2 = d) as -> by congruence.
      destruct (lookup_lt_is_Some_2 ms i) as [m Hm].
      { rewrite Hlen, <- (Forall2_length _ _ _ Hts). eapply lookup_lt_Some, Hi. }
      assert (Hpair : zip (pages d) ms !! i = Some (page, m))
        by (apply lookup_zip_Some; auto).
      destruct (Forall2_lookup_l _ _ _ _ _ Hnd Hpair)
        as (np & _ & _ & _ & _ & imgs' & Himgs' & Hpl).
      simpl in Himgs'. assert (imgs' = imgs) as -> by congruence.
      destruct (Forall2_lookup_l _ _ _ _ _ Hpl Hj) as (pl & _ & _ & Hext & _).
      destruct Hbad as [Hnone | [e He]]; congruence.
Qed.

(** X14: A readable document with at least one page is always processed, even
    when its pages carry no text: the no-text abort is never taken, one
    request is sent per page, and the run ends with the success line or
    with the error of the [try] block. *)
Theorem readable_document_is_always_processed (self : Processor)
    (input_filename output_filename command : pystr)
    (w : World) (b : bytes) (d : Document) (page : Page) (rest : list Page) :
  fs w !! input_path_of self input_filename = Some b ->
  parse_pdf X b = Ok d ->
  pages d = page :: rest ->
  Forall (fun p => exists t, get_text p = Ok t) (pages d) ->
  exists w',
    replace_text_in_pdf X self input_filename output_filename command w = (Ok tt, w') /\
    length (requests w') = (length (requests w) + length (pages d))%nat /\
    (last (stdout w')
     = Some (ProcessedSuccessfully (output_path_of self output_filename)) \/
     exists e, last (stdout w') = Some (ErrorProcessing e)).
Proof.
  intros Hf Hd Hps Hall.
  destruct (read_pages_cases (pages d))
    as [[ts Hts] | (before & p & after & e & Hsplit & _ & Hp)].
  2:{ exfalso. rewrite Hsplit in Hall. apply Forall_app in Hall as [_ Hall].
      inversion Hall as [|? ? [t Ht] _]; subst. congruence. }
  pose proof (extract_ok X self _ w b d ts Hf Hd Hts) as Hex'.
  destruct (replace_trace self input_filename output_filename command w)
    as (ts' & w0 & Hex & _ & Hrq & Hcases).
  rewrite Hex' in Hex. injection Hex as <- <-.
  destruct Hcases as [[-> _] | [_ Hrun]].
  { exfalso. apply Forall2_length in Hts. rewrite Hps in Hts. discriminate. }
  destruct Hrun as (b' & d' & ms & w1 & r1 & w2 & _ & _ & _ & _ & _ & _ & Hrq1 & _ & Hreb & Hr).
  eexists. split; [exact Hr|].
  destruct (rebuild_effect _ _ _ _ _ _ Hreb) as (_ & _ & Hrq2 & _).
  assert (Hlen : length (requests w2) = (length (requests w) + length (pages d))%nat).
  { rewrite Hrq2, Hrq1, length_app, length_map.
    rewrite (Forall2_length _ _ _ Hts). reflexivity. }
  destruct (rebuild_cases _ _ _ _ _ _ Hreb)
    as [(e & -> & ->) | (b2 & d2 & nd & _ & _ & _ &
                         [(e & [partial|] & -> & _ & ->) | (-> & _ & ->)])];
    simpl in *; rewrite last_snoc; split; eauto.
Qed.

End Effects.

(** ** The further properties on the sample installation *)

(** The sample document with its texts removed, as a scan has them. *)
Definition scanned_doc : Document :=
  mkDocument
    [ mkPage letter (Ok []) (Ok []); mkPage letter (Ok []) (Ok []) ]
    (fun _ => Ok None).

Definition scan_external : External :=
  mkExternal
    (script_dir sample_external) (makedirs_error sample_external)
    (fun _ => Ok scanned_doc) (no_such_file sample_external)
    (completions_create sample_external)
    (new_page_error sample_external) (insert_text_error sample_external)
    (insert_image_error sample_external) (pdf_bytes sample_external)
    (save_error sample_external) (client_error sample_external)
    (image_bbox sample_external) (failed_save_dirs sample_external).

Lemma blank_answer_on_sample :
  process_command_with_gpt blank_external sample_self
    (lit "Hello Startup") modification_command sample_world
  = (Ok [], sent (gpt_request (lit "Hello Startup") modification_command) sample_world).
Proof.
  apply (blank_answer_gives_empty_text blank_external sample_self
           (lit "Hello Startup") modification_command sample_world
           (answer [32%N; 9%N; LF]) (mkChoice (Some [32%N; 9%N; LF])) []
           [32%N; 9%N; LF]).
  - reflexivity.
  - reflexivity.
  - reflexivity.
  - repeat constructor.
Defined.

Definition exhausted_run : result unit * World :=
  replace_text_in_pdf sample_external sample_self
    (lit "sample.pdf") (lit "modified_sample.pdf") modification_command
    exhausted_world.

Lemma exhausted_service_keeps_sample_text :
  exists new_doc : NewDocument,
    fs (snd exhausted_run) !! output_path_of sample_self (lit "modified_sample.pdf")
    = Some (pdf_bytes sample_external new_doc) /\
    length new_doc = length (pages sample_doc) /\
    forall i page, pages sample_doc !! i = Some page ->
      exists text new_page,
        get_text page = Ok text /\
        new_doc !! i = Some new_page /\
        np_texts new_page = [mkTextRun (50, 50) text 11 None].
Proof.
  apply (failing_service_keeps_original_text sample_external sample_self
           (lit "sample.pdf") (lit "modified_sample.pdf") modification_command
           exhausted_world [Byte.x01] sample_doc (fst exhausted_run) (snd exhausted_run)).
  - intros extra request. eexists. reflexivity.
  - vm_compute. reflexivity.
  - reflexivity.
  - vm_compute. reflexivity.
  - vm_compute. reflexivity.
Defined.

Definition short_rebuild : result unit * World :=
  rebuild sample_external sample_pdf (lit "/tmp/short.pdf")
    [lit "Hello Enterprise"] sample_world.

Lemma short_rebuild_has_one_page :
  exists new_doc : NewDocument,
    fs (snd short_rebuild) !! lit "/tmp/short.pdf"
    = Some (pdf_bytes sample_external new_doc) /\
    length new_doc = Nat.min (length (pages sample_doc)) 1 /\
    forall i new_page, new_doc !! i = Some new_page ->
      exists page modified_text,
        pages sample_doc !! i = Some page /\
        [lit "Hello Enterprise"] !! i = Some modified_text /\
        np_width new_page = width (rect page) /\
        np_height new_page = height (rect page) /\
        np_texts new_page = [mkTextRun (50, 50) modified_text 11 None].
Proof.
  apply (reconstruction_stops_at_the_shorter_list sample_external sample_pdf
           (lit "/tmp/short.pdf") [lit "Hello Enterprise"] sample_world
           (snd short_rebuild) [Byte.x01] sample_doc).
  - vm_compute. reflexivity.
  - reflexivity.
  - vm_compute. reflexivity.
Defined.

Lemma dangling_image_loses_the_output :
  exists w',
    replace_text_in_pdf sample_external sample_self
      (lit "dangling.pdf") (lit "modified_sample.pdf") modification_command sample_world
    = (Ok tt, w') /\
    fs w' = fs sample_world /\
    (last (stdout w') = Some NoTextExtracted \/
     exists e, last (stdout w') = Some (ErrorProcessing e)).
Proof.
  apply (unextractable_image_loses_the_output sample_external sample_self
           (lit "dangling.pdf") (lit "modified_sample.pdf") modification_command
           sample_world [Byte.x03] dangling_doc 0 0
           (mkPage letter (Ok (lit "Figure 1")) (Ok [mkImageItem 9 0 10 10 "Im9"]))
           [mkImageItem 9 0 10 10 "Im9"] (mkImageItem 9 0 10 10 "Im9")).
  - vm_compute. reflexivity.
  - reflexivity.
  - reflexivity.
  - reflexivity.
  - reflexivity.
  - left. reflexivity.
Defined.

Lemma scanned_document_is_processed :
  exists w',
    replace_text_in_pdf scan_external sample_self
      (lit "sample.pdf") (lit "modified_sample.pdf") modification_command sample_world
    = (Ok tt, w') /\
    length (requests w') = (length (requests sample_world) + length (pages scanned_doc))%nat /\
    (last (stdout w')
     = Some (ProcessedSuccessfully (output_path_of sample_self (lit "modified_sample.pdf"))) \/
     exists e, last (stdout w') = Some (ErrorProcessing e)).
Proof.
  apply (readable_document_is_always_processed scan_external sample_self
           (lit "sample.pdf") (lit "modified_sample.pdf") modification_command
           sample_world [Byte.x01] scanned_doc
           (mkPage letter (Ok []) (Ok [])) [mkPage letter (Ok []) (Ok [])]).
  - vm_compute. reflexivity.
  - reflexivity.
  - reflexivity.
  - repeat econstructor.
Defined.

Example scanned_document_sends_empty_texts :
  List.map messages (requests (snd (replace_text_in_pdf scan_external sample_self
      (lit "sample.pdf") (lit "modified_sample.pdf") (lit "Fix typos") sample_world)))
  = [ [system_message; user_message [] (lit "Fix typos")];
      [system_message; user_message [] (lit "Fix typos")] ].
Proof. vm_compute. reflexivity. Qed.
